(** * Quiz rooms: a shallow embedding of [main.py]

    The FastAPI handlers of [main.py] are embedded as functions from the
    process state to a response and a new process state.  The global
    [ROOMS] dictionary is a finite map from room codes to rooms; the
    insertion-ordered dictionaries whose order is observable (players of a
    room, answers of a player, the submitted form) are association lists
    with Python's update-in-place-or-append semantics.  Randomness
    ([secrets.choice]) is read from an explicit tape, and the trivia
    provider's reply is an argument of [create_room]. *)

From Stdlib Require Import String Ascii DecimalString DecimalNat ZArith Sorted
  Permutation OrderedTypeEx.
From stdpp Require Import gmap strings list fin_maps sorting.

Open Scope string_scope.

(** ** Python strings *)

Module PyStr.

(** [str.startswith] *)
Definition startswith (p s : string) : bool := String.prefix p s.

(** [str.isspace] on one character (code points below 256). *)
Definition isspace (c : ascii) : bool :=
  let n := nat_of_ascii c in
  (Nat.leb 9 n && Nat.leb n 13) || (Nat.leb 28 n && Nat.leb n 32)
  || Nat.eqb n 133 || Nat.eqb n 160.

Fixpoint lstrip (s : string) : string :=
  match s with
  | EmptyString => EmptyString
  | String c r => if isspace c then lstrip r else s
  end.

Fixpoint rstrip (s : string) : string :=
  match s with
  | EmptyString => EmptyString
  | String c r =>
      match rstrip r with
      | EmptyString => if isspace c then EmptyString else String c EmptyString
      | r' => String c r'
      end
  end.

(** [str.strip()] *)
Definition strip (s : string) : string := rstrip (lstrip s).

(** [s.split("||")]: left-to-right, non-overlapping occurrences of the
    two-character separator; the result always has at least one piece. *)
Fixpoint split_bars (s : string) : list string :=
  match s with
  | EmptyString => [EmptyString]
  | String c r =>
      match c, r with
      | "|"%char, String "|"%char r' => EmptyString :: split_bars r'
      | _, _ =>
          match split_bars r with
          | h :: t => String c h :: t
          | [] => [String c EmptyString]
          end
      end
  end.

(** [str(i)] for a non-negative integer, as used by [f"q{i}"]. *)
Definition of_nat (i : nat) : string := NilZero.string_of_uint (Nat.to_uint i).

Definition isdigit (c : ascii) : bool :=
  let n := nat_of_ascii c in Nat.leb 48 n && Nat.leb n 57.

Definition digit_val (c : ascii) : Z := Z.of_nat (nat_of_ascii c - 48).

(** The digit part of a decimal literal accepted by [int]: digits, with
    single underscores allowed between two digits. *)
Fixpoint int_digits (s : string) (acc : Z) (after_digit : bool) : option Z :=
  match s with
  | EmptyString => if after_digit then Some acc else None
  | String c r =>
      if isdigit c then int_digits r (10 * acc + digit_val c)%Z true
      else if Ascii.eqb c "_"%char && after_digit then int_digits r acc false
      else None
  end.

(** The white space [int] skips around a literal: the ASCII characters of
    C's [isspace], and, of the code points from 128 to 255, the two Unicode
    spaces, which [int] turns into blanks first.  The separators 28 to 31
    are not skipped, although [str.strip] removes them. *)
Definition int_space (c : ascii) : bool :=
  let n := nat_of_ascii c in
  (Nat.leb 9 n && Nat.leb n 13) || Nat.eqb n 32 || Nat.eqb n 133 || Nat.eqb n 160.

Fixpoint lskip (p : ascii -> bool) (s : string) : string :=
  match s with
  | EmptyString => EmptyString
  | String c r => if p c then lskip p r else s
  end.

Fixpoint rskip (p : ascii -> bool) (s : string) : string :=
  match s with
  | EmptyString => EmptyString
  | String c r =>
      match rskip p r with
      | EmptyString => if p c then EmptyString else String c EmptyString
      | r' => String c r'
      end
  end.

Fixpoint digit_count (s : string) : N :=
  match s with
  | EmptyString => 0%N
  | String c r => if isdigit c then N.succ (digit_count r) else digit_count r
  end.

(** [sys.int_max_str_digits], at its default. *)
Definition int_max_str_digits : N := 4300%N.

(** [int(s)] for a string [s] of code points below 256: white space
    around, an optional sign, and a decimal literal of at most
    [int_max_str_digits] digits; [None] stands for [ValueError]. *)
Definition int (s : string) : option Z :=
  let lit := rskip int_space (lskip int_space s) in
  let (negative, body) :=
    match lit with
    | String "-"%char r => (true, r)
    | String "+"%char r => (false, r)
    | r => (false, r)
    end in
  if N.ltb int_max_str_digits (digit_count body) then None
  else if negative then Z.opp <$> int_digits body 0%Z false
  else int_digits body 0%Z false.

Definition ascii_uppercase : string := "ABCDEFGHIJKLMNOPQRSTUVWXYZ".
Definition digits : string := "0123456789".

(** Truthiness of a string. *)
Definition truthy (s : string) : bool := negb (String.eqb s EmptyString).

End PyStr.

(** ** Insertion-ordered dictionaries with string keys *)

Module PyDict.

Section Dict.
Context {V : Type}.

Definition t := list (string * V).

Fixpoint get (k : string) (d : list (string * V)) : option V :=
  match d with
  | [] => None
  | (k', v) :: r => if String.eqb k k' then Some v else get k r
  end.

(** [k in d] *)
Definition contains (k : string) (d : list (string * V)) : bool :=
  match get k d with Some _ => true | None => false end.

(** [d[k] = v]: an existing key keeps its position, a new key goes last. *)
Fixpoint set (k : string) (v : V) (d : list (string * V)) : list (string * V) :=
  match d with
  | [] => [(k, v)]
  | (k', v') :: r =>
      if String.eqb k k' then (k, v) :: r else (k', v') :: set k v r
  end.

Definition keys (d : list (string * V)) : list string := List.map fst d.
Definition values (d : list (string * V)) : list V := List.map snd d.
Definition items (d : list (string * V)) : list (string * V) := d.

(** [{k: v for k, v in l}] *)
Definition of_items (l : list (string * V)) : list (string * V) :=
  fold_left (fun d kv => set (fst kv) (snd kv) d) l [].

End Dict.

End PyDict.

(** ** [sorted] *)

Module PySort.

Section Sort.
Context {A : Type} (le : A -> A -> bool).

(** Insertion keeps [x] in front of the elements it is tied with. *)
Fixpoint insert (x : A) (l : list A) : list A :=
  match l with
  | [] => [x]
  | y :: r => if le x y then x :: y :: r else y :: insert x r
  end.

(** A stable ascending sort.  Stability and sortedness determine the
    result of a sort, so this is the list [list.sort] computes. *)
Fixpoint stable_sort (l : list A) : list A :=
  match l with
  | [] => []
  | x :: r => insert x (stable_sort r)
  end.

(** [sorted(l, key=..., reverse=...)]: with [reverse=True] CPython
    reverses the list, sorts it, and reverses the result, which keeps
    tied elements in their original order. *)
Definition sorted (reverse : bool) (l : list A) : list A :=
  if reverse then rev (stable_sort (rev l)) else stable_sort l.

End Sort.

End PySort.

(** ** The random source *)

(** [draws i] is the number behind the [i]-th call of [secrets.choice];
    [pos] counts the calls made so far. *)
Record Tape := mkTape { draws : nat -> nat; pos : nat }.

(** [secrets.choice(alphabet)] *)
Definition secrets_choice (alphabet : string) (t : Tape) : ascii * Tape :=
  let i := draws t (pos t) mod String.length alphabet in
  (match String.get i alphabet with Some c => c | None => "000"%char end,
   mkTape (draws t) (S (pos t))).

(** [''.join(secrets.choice(alphabet) for _ in range(n))] *)
Fixpoint random_string (alphabet : string) (n : nat) (t : Tape) : string * Tape :=
  match n with
  | O => (EmptyString, t)
  | S n' =>
      let (c, t1) := secrets_choice alphabet t in
      let (s, t2) := random_string alphabet n' t1 in
      (String c s, t2)
  end.

Definition gen_room_code (n : nat) (t : Tape) : string * Tape :=
  let alphabet := PyStr.ascii_uppercase +:+ PyStr.digits in
  random_string alphabet n t.

(** ** Data model *)

Definition CATEGORIES : list (string * nat) :=
  [("general", 9); ("tech", 18); ("movies", 11)].

(** One item of [fetch_questions]' result. *)
Record Question := mkQuestion {
  question : string;
  answer : string;
  options : list string
}.

(** One scored entry, the dictionary built by the two submit handlers. *)
Record Entry := mkEntry {
  e_question : string;
  e_correct : string;
  e_selected : string;
  is_correct : bool
}.

Record Player := mkPlayer {
  answers : list (string * Entry);
  submitted : bool
}.

Record Room := mkRoom {
  domain : string;
  questions : list Question;
  players : list (string * Player);
  created : bool
}.

(** The process state: the [ROOMS] global and the random source. *)
Record World := mkWorld {
  ROOMS : gmap string Room;
  tape : Tape
}.

(** A row of the leaderboard. *)
Record Row := mkRow {
  r_username : string;
  r_score : nat;
  r_submitted : bool
}.

(** A submitted form: its items in the order they were sent.  As in
    Starlette's [FormData], [keys()] and [get()] go through the dictionary
    built from the items, so a repeated field keeps the position of its
    first occurrence and the value of its last. *)
Definition Form := list (string * string).

Definition form_keys (f : Form) : list string := PyDict.keys (PyDict.of_items f).
Definition form_get (k : string) (f : Form) : option string :=
  PyDict.get k (PyDict.of_items f).

(** What a handler returns. *)
Inductive Response :=
| InvalidRoomCode
| Redirect (url : string)
| RoomJoinPage (code domain : string) (question_count : nat)
| RoomQuizPage (code username : string) (qs : list Question) (total_questions : nat)
| RoomResultsPage (code : string) (players_sorted : list Row) (details : list Entry)
    (username : option string) (total_questions : nat)
| SinglePlayerResultsPage (results : list Entry) (score : nat) (total : Z).

(** ** Scoring a submitted value *)

(** The body shared by both submit loops: split [question||correct||selected],
    fall back to the whole value as question text when the split does not
    give three pieces, then compare. *)
Definition score_value (val : string) : Entry :=
  let '(qtext, correct, selected) :=
    match PyStr.split_bars val with
    | [a; b; c] => (a, b, c)
    | _ => (val, EmptyString, EmptyString)
    end in
  mkEntry qtext correct selected (String.eqb selected correct).

(** [[k for k in form.keys() if k.startswith("q")]] *)
Definition q_keys (f : Form) : list string :=
  List.filter (PyStr.startswith "q") (form_keys f).

(** [sum(1 for a in ... if a["is_correct"])] *)
Definition count_correct (l : list Entry) : nat :=
  length (List.filter is_correct l).

(** ** Single player *)

(** The loop of [single_player_results] over the sorted keys. *)
Fixpoint single_answers (f : Form) (ks : list string) : list Entry :=
  match ks with
  | [] => []
  | key :: r =>
      match form_get key f with
      | Some val =>
          if PyStr.truthy val then score_value val :: single_answers f r
          else single_answers f r
      | None => single_answers f r
      end
  end.

(** [int(form.get("total_questions") or 0)] *)
Definition declared_total (f : Form) : option Z :=
  match form_get "total_questions" f with
  | Some v => if PyStr.truthy v then PyStr.int v else Some 0%Z
  | None => Some 0%Z
  end.

(** [None] is the [ValueError] of [int]. *)
Definition single_player_results (f : Form) : option Response :=
  match declared_total f with
  | None => None
  | Some total_questions =>
      let answers := single_answers f (PySort.sorted String.leb false (q_keys f)) in
      let score := count_correct answers in
      Some (SinglePlayerResultsPage answers score total_questions)
  end.

(** ** Rooms *)

Definition normalize_domain (d : string) : string :=
  if PyDict.contains d CATEGORIES then d else "general".

(** [fetched] is what [fetch_questions(domain)] returned. *)
Definition create_room (w : World) (dom : string) (fetched : list Question)
  : Response * World :=
  let dom := normalize_domain dom in
  let (code, t) := gen_room_code 6 (tape w) in
  let room := mkRoom dom fetched [] true in
  (Redirect ("/room/" +:+ code), mkWorld (<[code := room]> (ROOMS w)) t).

Definition room_join_page (w : World) (code : string) : Response * World :=
  match ROOMS w !! code with
  | None => (InvalidRoomCode, w)
  | Some room =>
      (RoomJoinPage code (domain room) (length (questions room)), w)
  end.

(** [username.strip() or "Player"] *)
Definition display_name (username : string) : string :=
  let u := PyStr.strip username in
  if PyStr.truthy u then u else "Player".

(** The name [room_join] stores, and the tape after drawing a suffix. *)
Definition pick_name (room : Room) (username : string) (t : Tape) : string * Tape :=
  let uname := display_name username in
  if PyDict.contains uname (players room) then
    let (suffix, t') := random_string PyStr.digits 3 t in
    (uname +:+ "_" +:+ suffix, t')
  else (uname, t).

Definition room_join (w : World) (code username : string) : Response * World :=
  match ROOMS w !! code with
  | None => (InvalidRoomCode, w)
  | Some room =>
      let (uname, t) := pick_name room username (tape w) in
      let room' :=
        mkRoom (domain room) (questions room)
          (PyDict.set uname (mkPlayer [] false) (players room)) (created room) in
      (Redirect ("/room/" +:+ code +:+ "/quiz?username=" +:+ uname),
       mkWorld (<[code := room']> (ROOMS w)) t)
  end.

Definition room_quiz (w : World) (code username : string) : Response * World :=
  match ROOMS w !! code with
  | None => (InvalidRoomCode, w)
  | Some room =>
      if PyDict.contains username (players room) then
        (RoomQuizPage code username (questions room) (length (questions room)), w)
      else (Redirect ("/room/" +:+ code), w)
  end.

(** The loop of [room_submit]: [answers[key] = {...}] for every key with a
    non-empty value. *)
Fixpoint room_answers (f : Form) (ks : list string) (acc : list (string * Entry))
  : list (string * Entry) :=
  match ks with
  | [] => acc
  | key :: r =>
      match form_get key f with
      | Some val =>
          if PyStr.truthy val
          then room_answers f r (PyDict.set key (score_value val) acc)
          else room_answers f r acc
      | None => room_answers f r acc
      end
  end.

Definition submitted_answers (f : Form) : list (string * Entry) :=
  room_answers f (q_keys f) [].

Definition room_submit (w : World) (code : string) (f : Form) : Response * World :=
  match ROOMS w !! code with
  | None => (InvalidRoomCode, w)
  | Some room =>
      match form_get "username" f with
      | None => (Redirect ("/room/" +:+ code), w)
      | Some username =>
          match PyDict.get username (players room) with
          | None => (Redirect ("/room/" +:+ code), w)
          | Some info =>
              let info1 := mkPlayer (submitted_answers f) (submitted info) in
              let info2 := mkPlayer (answers info1) true in
              let room' :=
                mkRoom (domain room) (questions room)
                  (PyDict.set username info2 (players room)) (created room) in
              (Redirect ("/room/" +:+ code +:+ "/results?username=" +:+ username),
               mkWorld (<[code := room']> (ROOMS w)) (tape w))
          end
      end
  end.

(** The rows of the leaderboard, in the iteration order of [players]. *)
Definition player_rows (room : Room) : list Row :=
  List.map
    (fun '(uname, info) =>
       mkRow uname (count_correct (PyDict.values (answers info))) (submitted info))
    (PyDict.items (players room)).

(** The order on the sort key, [x["score"]]. *)
Definition score_le (x y : Row) : bool := Nat.leb (r_score x) (r_score y).

(** [sorted(players, key=lambda x: x["score"], reverse=True)] *)
Definition leaderboard (room : Room) : list Row :=
  PySort.sorted score_le true (player_rows room).

(** The entry shown for question [i] of a joined player. *)
Definition detail_at (room : Room) (info : Player) (i : nat) : Entry :=
  match PyDict.get ("q" +:+ PyStr.of_nat i) (answers info) with
  | Some a => a
  | None =>
      let qtext := match questions room !! i with
                   | Some q => question q | None => EmptyString end in
      let correct := match questions room !! i with
                     | Some q => answer q | None => EmptyString end in
      mkEntry qtext correct EmptyString false
  end.

(** [room["players"].get(username) if username else None] *)
Definition user_details (room : Room) (username : option string) : option Player :=
  match username with
  | Some u => if PyStr.truthy u then PyDict.get u (players room) else None
  | None => None
  end.

Definition detailed (room : Room) (username : option string) : list Entry :=
  match user_details room username with
  | Some info => List.map (detail_at room info) (seq 0 (length (questions room)))
  | None => []
  end.

Definition room_results (w : World) (code : string) (username : option string)
  : Response * World :=
  match ROOMS w !! code with
  | None => (InvalidRoomCode, w)
  | Some room =>
      (RoomResultsPage code (leaderboard room) (detailed room username)
         username (length (questions room)), w)
  end.

(** ** Sequences of calls and patterns used in the statements *)


Fixpoint drop_prefix (p s : string) : option string :=
  match p, s with
  | EmptyString, _ => Some s
  | String a p', String b s' => if Ascii.eqb a b then drop_prefix p' s' else None
  | String _ _, EmptyString => None
  end.

(** The regular expression [name_\d{3}], anchored at both ends. *)
Definition matches_suffixed (name s : string) : bool :=
  match drop_prefix name s with
  | Some (String u (String d1 (String d2 (String d3 EmptyString)))) =>
      Ascii.eqb u "_"%char && PyStr.isdigit d1 && PyStr.isdigit d2 && PyStr.isdigit d3
  | _ => false
  end.

(** Whether the loops of the submit handlers keep the value of [key]. *)
Definition answered (f : Form) (key : string) : bool :=
  match form_get key f with
  | Some val => PyStr.truthy val
  | None => false
  end.

(** Whether [key] carries a value whose selected part equals its
    client-supplied correct part. *)
Definition answered_right (f : Form) (key : string) : bool :=
  match form_get key f with
  | Some val =>
      PyStr.truthy val
      && String.eqb (e_selected (score_value val)) (e_correct (score_value val))
  | None => false
  end.

(** A tape on which every draw is [0], and one that changes its draw
    every six calls. *)
Definition zero_tape : Tape := mkTape (fun _ => 0) 0.

Definition sample_question : Question :=
  mkQuestion "Capital of France?" "Paris" ["Rome"; "Paris"; "Oslo"; "Bern"].

(** What the flag of a scored entry says about its two answers. *)
Definition flag_consistent (e : Entry) : Prop :=
  (is_correct e = true ↔ e_selected e = e_correct e)
  ∧ (e_selected e = EmptyString → e_correct e ≠ EmptyString → is_correct e = false).

(** The placeholder [room_results] shows for an unanswered question. *)
Definition placeholder (q : Question) : Entry :=
  mkEntry (question q) (answer q) EmptyString false.

(** A room with one question and one joined player, registered under
    ["ROOM01"]. *)
Definition sample_room : Room :=
  mkRoom "general" [sample_question] [("alice", mkPlayer [] false)] true.
Definition sample_world : World :=
  mkWorld {[ "ROOM01" := sample_room ]} zero_tape.
Definition empty_world : World := mkWorld ∅ zero_tape.

(** A room with two players, the first of whom has submitted three
    answers, one of them under a key beyond the room's only question. *)
Definition scored_room : Room :=
  mkRoom "general" [sample_question]
    [("alice",
      mkPlayer [("q0", mkEntry "Capital of France?" "Paris" "Paris" true);
                ("q7", mkEntry "1 + 1?" "2" "2" true);
                ("q1", mkEntry "2 + 2?" "4" "5" false)] true);
     ("bob", mkPlayer [] false)] true.
Definition scored_world : World :=
  mkWorld {[ "ROOM01" := scored_room ]} zero_tape.

(** ** The trivia provider *)

Module PyRandom.

(** [x[i], x[j] = x[j], x[i]] *)
Definition swap {A : Type} (i j : nat) (x : list A) : list A :=
  match x !! i, x !! j with
  | Some a, Some b => <[j := a]> (<[i := b]> x)
  | _, _ => x
  end.

(** The loop of [random.shuffle] from index [i] down to [1]; each round
    exchanges [x[i]] with [x[randbelow(i + 1)]]. *)
Fixpoint shuffle_from {A : Type} (i : nat) (x : list A) (t : Tape) : list A * Tape :=
  match i with
  | O => (x, t)
  | S i' =>
      let j := draws t (pos t) mod (S i) in
      shuffle_from i' (swap i j x) (mkTape (draws t) (S (pos t)))
  end.

(** [random.shuffle(x)] *)
Definition shuffle {A : Type} (x : list A) (t : Tape) : list A * Tape :=
  shuffle_from (length x - 1) x t.

End PyRandom.

(** One element of the ["results"] list of the provider's reply; a field
    is [None] when the key is absent. *)
Record Item := mkItem {
  i_question : option string;
  i_correct_answer : option string;
  i_incorrect_answers : option (list string)
}.

(** [CATEGORIES.get(category_key, CATEGORIES["general"])] *)
Definition category_id (category_key : string) : nat :=
  match PyDict.get category_key CATEGORIES with
  | Some n => n
  | None => match PyDict.get "general" CATEGORIES with Some n => n | None => 0 end
  end.

Definition question_url (category_key : string) (amount : nat) : string :=
  "https://opentdb.com/api.php?amount=" +:+ PyStr.of_nat amount
  +:+ "&category=" +:+ PyStr.of_nat (category_id category_key)
  +:+ "&type=multiple".

Section Provider.

(** [html.unescape], and the request: [http_results url] is
    [data.get("results")] for the reply to [url], [None] when the request
    or the decoding raised or the key is absent. *)
Variable unescape : string → string.
Variable http_results : string → option (list Item).

(** The body of the loop of [fetch_questions]. *)
Definition build_question (item : Item) (t : Tape) : Question * Tape :=
  let qtext := unescape (default EmptyString (i_question item)) in
  let correct := unescape (default EmptyString (i_correct_answer item)) in
  let incorrect := List.map unescape (default [] (i_incorrect_answers item)) in
  let (opts, t') := PyRandom.shuffle (incorrect ++ [correct])%list t in
  (mkQuestion qtext correct opts, t').

Fixpoint build_questions (items : list Item) (t : Tape) : list Question * Tape :=
  match items with
  | [] => ([], t)
  | item :: r =>
      let (q, t1) := build_question item t in
      let (qs, t2) := build_questions r t1 in
      (q :: qs, t2)
  end.

(** [t] is the state of the [random] module. *)
Definition fetch_questions (category_key : string) (amount : nat) (t : Tape)
  : list Question * Tape :=
  match http_results (question_url category_key amount) with
  | Some (item :: r) => build_questions (item :: r) t
  | _ => ([], t)
  end.

(** The context [single_quiz_start] hands to its template: questions,
    domain and [total_questions]. *)
Definition single_quiz_start (dom : string) (t : Tape)
  : (list Question * string * nat) * Tape :=
  let dom := normalize_domain dom in
  let (qs, t') := fetch_questions dom 10 t in
  ((qs, dom, length qs), t').

(** [create_room] together with its call of [fetch_questions]. *)
Definition create_room_fetching (w : World) (dom : string) (t : Tape)
  : (Response * World) * Tape :=
  let (qs, t') := fetch_questions (normalize_domain dom) 10 t in
  (create_room w dom qs, t').

End Provider.

(** ** Requests and runs *)

Inductive Request :=
| ReqCreate (dom : string) (fetched : list Question)
| ReqRoomPage (code : string)
| ReqJoin (code username : string)
| ReqQuiz (code username : string)
| ReqSubmit (code : string) (f : Form)
| ReqResults (code : string) (username : option string).

Definition handle (w : World) (r : Request) : Response * World :=
  match r with
  | ReqCreate dom fetched => create_room w dom fetched
  | ReqRoomPage code => room_join_page w code
  | ReqJoin code username => room_join w code username
  | ReqQuiz code username => room_quiz w code username
  | ReqSubmit code f => room_submit w code f
  | ReqResults code username => room_results w code username
  end.

(** The state after serving the requests in order. *)
Definition run (w : World) (rs : list Request) : World :=
  fold_left (λ w r, (handle w r).2) rs w.

(** The state at start-up: [ROOMS = {}]. *)
Definition initial (t : Tape) : World := mkWorld ∅ t.

Definition is_create (r : Request) : bool :=
  match r with ReqCreate _ _ => true | _ => false end.

(** ** Predicates of the statements *)

(** A character of [string.ascii_uppercase + string.digits]. *)
Definition code_char (c : ascii) : bool :=
  let n := nat_of_ascii c in
  (Nat.leb 65 n && Nat.leb n 90) || PyStr.isdigit c.

Fixpoint string_forall (p : ascii → bool) (s : string) : bool :=
  match s with
  | EmptyString => true
  | String c r => p c && string_forall p r
  end.

(** No vertical bar occurs in the string. *)
Definition bar_free (s : string) : bool :=
  string_forall (λ c, negb (Ascii.eqb c "|"%char)) s.

(** The value the quiz form carries for one question. *)
Definition encode_answer (qtext correct selected : string) : string :=
  qtext +:+ "||" +:+ correct +:+ "||" +:+ selected.

Fixpoint last_char (s : string) : option ascii :=
  match s with
  | EmptyString => None
  | String c EmptyString => Some c
  | String _ r => last_char r
  end.

(** What holds of every player and room the handlers can produce. *)
Definition player_ok (p : string * Player) : Prop :=
  p.1 ≠ EmptyString
  ∧ NoDup (PyDict.keys (answers p.2))
  ∧ Forall (λ k, PyStr.startswith "q" k = true) (PyDict.keys (answers p.2))
  ∧ Forall flag_consistent (PyDict.values (answers p.2))
  ∧ (submitted p.2 = false → answers p.2 = []).

Definition room_ok (code : string) (room : Room) : Prop :=
  String.length code = 6
  ∧ string_forall code_char code = true
  ∧ created room = true
  ∧ domain room ∈ PyDict.keys CATEGORIES
  ∧ NoDup (PyDict.keys (players room))
  ∧ Forall player_ok (players room).

Definition world_ok (w : World) : Prop :=
  ∀ code room, ROOMS w !! code = Some room → room_ok code room.

(** The stored answer of question [i] when it is flagged correct. *)
Definition correct_at (ans : list (string * Entry)) (i : nat)
  : option (string * Entry) :=
  match PyDict.get ("q" +:+ PyStr.of_nat i) ans with
  | Some a => if is_correct a then Some ("q" +:+ PyStr.of_nat i, a) else None
  | None => None
  end.

(** A submission by "alice" with a field whose carried correct answer is
    not the room's, a right one, a wrong one and an empty one. *)
Definition mixed_form : Form :=
  [("username", "alice");
   ("q0", encode_answer "Capital of France?" "Rome" "Rome");
   ("q1", encode_answer "1 + 1?" "2" "2");
   ("q2", encode_answer "2 + 2?" "4" "5");
   ("q3", "")].

(** * Properties *)

(** ** Dictionaries *)

Section DictFacts.
Context {V : Type}.
Implicit Types (d : list (string * V)) (k : string) (v : V).

Lemma get_set_eq k v d : PyDict.get k (PyDict.set k v d) = Some v.
Proof.
  induction d as [|[k' v'] d IH]; simpl.
  - by rewrite String.eqb_refl.
  - destruct (String.eqb_spec k k') as [->|Hne]; simpl.
    + by rewrite String.eqb_refl.
    + destruct (String.eqb_spec k k'); [done | exact IH].
Qed.

Lemma get_set_ne k k' v d :
  k ≠ k' → PyDict.get k' (PyDict.set k v d) = PyDict.get k' d.
Proof.
  intros Hne. induction d as [|[k0 v0] d IH]; simpl.
  - destruct (String.eqb_spec k' k); congruence.
  - destruct (String.eqb_spec k k0) as [->|Hk]; simpl.
    + destruct (String.eqb_spec k' k0); congruence.
    + destruct (String.eqb_spec k' k0); [done | exact IH].
Qed.

Lemma set_set k v1 v2 d :
  PyDict.set k v2 (PyDict.set k v1 d) = PyDict.set k v2 d.
Proof.
  induction d as [|[k' v'] d IH]; simpl.
  - by rewrite String.eqb_refl.
  - destruct (String.eqb_spec k k') as [->|Hne]; simpl.
    + by rewrite String.eqb_refl.
    + destruct (String.eqb_spec k k'); [done | by rewrite IH].
Qed.

Lemma get_None_keys k d : PyDict.get k d = None ↔ k ∉ PyDict.keys d.
Proof.
  induction d as [|[k' v'] d IH]; simpl.
  - split; [intros _; apply not_elem_of_nil | done].
  - rewrite not_elem_of_cons.
    destruct (String.eqb_spec k k') as [->|Hne]; split; try done.
    + intros [? _]; done.
    + intros H; split; [done | by apply IH].
    + intros [_ H]; by apply IH.
Qed.

Lemma contains_false k d : PyDict.contains k d = false ↔ PyDict.get k d = None.
Proof. unfold PyDict.contains. destruct (PyDict.get k d); split; done. Qed.

Lemma contains_true k d : PyDict.contains k d = true ↔ is_Some (PyDict.get k d).
Proof.
  unfold PyDict.contains. destruct (PyDict.get k d); split; done.
Qed.

(** Assigning to a new key appends it. *)
Lemma set_fresh k v d : PyDict.get k d = None → PyDict.set k v d = (d ++ [(k, v)])%list.
Proof.
  induction d as [|[k' v'] d IH]; simpl; [done |].
  destruct (String.eqb_spec k k'); [done |].
  intros H; by rewrite IH.
Qed.

(** Assigning to an existing key leaves the order of the keys alone. *)
Lemma keys_set_present k v d :
  is_Some (PyDict.get k d) → PyDict.keys (PyDict.set k v d) = PyDict.keys d.
Proof.
  induction d as [|[k' v'] d IH]; simpl.
  - intros [? ?]; done.
  - destruct (String.eqb_spec k k') as [->|Hne]; simpl; [done |].
    intros H. f_equal. by apply IH.
Qed.

Lemma keys_set_NoDup k v d :
  NoDup (PyDict.keys d) → NoDup (PyDict.keys (PyDict.set k v d)).
Proof.
  intros Hnd. destruct (PyDict.get k d) eqn:Hg.
  - rewrite keys_set_present; [done | by eexists].
  - rewrite set_fresh by done. unfold PyDict.keys. rewrite map_app. simpl.
    apply NoDup_app. split_and!; [done | | apply NoDup_singleton].
    intros x Hx Hx'. apply list_elem_of_singleton in Hx'. subst x.
    by apply get_None_keys in Hg.
Qed.

Lemma of_items_NoDup (l : list (string * V)) : NoDup (PyDict.keys (PyDict.of_items l)).
Proof.
  unfold PyDict.of_items.
  assert (H : ∀ acc, NoDup (PyDict.keys acc) →
            NoDup (PyDict.keys (fold_left (λ d kv, PyDict.set kv.1 kv.2 d) l acc))).
  { induction l as [|[k v] l IH]; simpl; [done |].
    intros acc Hacc. apply IH. by apply keys_set_NoDup. }
  apply H. constructor.
Qed.

Lemma values_set_Forall (P : V → Prop) k v d :
  P v → Forall P (PyDict.values d) → Forall P (PyDict.values (PyDict.set k v d)).
Proof.
  intros Hv. induction d as [|[k' v'] d IH]; simpl.
  - intros _. by repeat constructor.
  - intros Hd. apply Forall_cons in Hd as [H1 H2].
    destruct (String.eqb k k'); simpl; constructor; auto.
Qed.

End DictFacts.

(** ** Sorting *)

Section SortFacts.
Context {A : Type} (le : A → A → bool).
Hypothesis le_total : ∀ x y, le x y = true ∨ le y x = true.
Hypothesis le_trans : ∀ x y z, le x y = true → le y z = true → le x z = true.

Lemma insert_perm x l : PySort.insert le x l ≡ₚ x :: l.
Proof.
  induction l as [|y l IH]; simpl; [done |].
  destruct (le x y); [done |].
  rewrite IH. apply perm_swap.
Qed.

Lemma stable_sort_perm l : PySort.stable_sort le l ≡ₚ l.
Proof.
  induction l as [|x l IH]; simpl; [done |].
  by rewrite insert_perm, IH.
Qed.

Lemma insert_sorted x l :
  StronglySorted (λ a b, le a b = true) l →
  StronglySorted (λ a b, le a b = true) (PySort.insert le x l).
Proof.
  induction 1 as [|y l Hs IH Hy]; simpl.
  - repeat constructor.
  - destruct (le x y) eqn:Hxy.
    + constructor; [by constructor |].
      constructor; [done |].
      eapply Forall_impl; [exact Hy |]. intros z Hz. by eapply le_trans.
    + constructor; [done |].
      rewrite insert_perm. constructor; [| done].
      destruct (le_total x y); congruence.
Qed.

Lemma stable_sort_sorted l :
  StronglySorted (λ a b, le a b = true) (PySort.stable_sort le l).
Proof.
  induction l as [|x l IH]; simpl; [constructor | by apply insert_sorted].
Qed.

(** Stability: a class of pairwise tied elements keeps its order. *)
Lemma insert_filter (p : A → bool) x l :
  (∀ a b, p a = true → p b = true → le a b = true) →
  List.filter p (PySort.insert le x l) = List.filter p (x :: l).
Proof.
  intros Hp. induction l as [|y l IH]; [done |].
  cbn [PySort.insert]. destruct (le x y) eqn:Hxy; [done |].
  cbn [List.filter] in *. rewrite IH.
  destruct (p x) eqn:Hx, (p y) eqn:Hy; try done.
  rewrite (Hp x y Hx Hy) in Hxy. done.
Qed.

Lemma stable_sort_filter (p : A → bool) l :
  (∀ a b, p a = true → p b = true → le a b = true) →
  List.filter p (PySort.stable_sort le l) = List.filter p l.
Proof.
  intros Hp. induction l as [|x l IH]; [done |].
  cbn [PySort.stable_sort]. rewrite insert_filter by done.
  cbn [List.filter]. by rewrite IH.
Qed.

Lemma sorted_perm b l : PySort.sorted le b l ≡ₚ l.
Proof.
  unfold PySort.sorted. destruct b.
  - by rewrite <- Permutation_rev, stable_sort_perm, <- Permutation_rev.
  - apply stable_sort_perm.
Qed.

Lemma sorted_filter (p : A → bool) b l :
  (∀ a b, p a = true → p b = true → le a b = true) →
  List.filter p (PySort.sorted le b l) = List.filter p l.
Proof.
  intros Hp. unfold PySort.sorted. destruct b.
  - by rewrite filter_rev, stable_sort_filter, filter_rev, rev_involutive.
  - by apply stable_sort_filter.
Qed.

Lemma StronglySorted_rev (S : A → A → Prop) l :
  StronglySorted S l → StronglySorted (flip S) (rev l).
Proof.
  induction 1 as [|x l Hs IH Hx]; simpl; [constructor |].
  apply StronglySorted_app_2; [| done | repeat constructor].
  intros a b Ha Hb. apply list_elem_of_singleton in Hb. subst b.
  unfold flip. rewrite Forall_forall in Hx. apply Hx.
  apply list_elem_of_In, in_rev, list_elem_of_In. exact Ha.
Qed.

Lemma sorted_reverse_descending l :
  StronglySorted (λ a b, le b a = true) (PySort.sorted le true l).
Proof.
  unfold PySort.sorted. apply (StronglySorted_rev (λ a b, le a b = true)), stable_sort_sorted.
Qed.

End SortFacts.

Lemma StronglySorted_weaken {A : Type} (S T : A → A → Prop) l :
  (∀ a b, S a b → T a b) → StronglySorted S l → StronglySorted T l.
Proof.
  intros HST. induction 1 as [|x l Hs IH Hx]; constructor; [done |].
  eapply Forall_impl; [exact Hx | auto].
Qed.

(** ** The random source *)

Lemma random_string_length alphabet n t :
  String.length (random_string alphabet n t).1 = n.
Proof.
  revert t. induction n as [|n IH]; intros t; [done |].
  cbn [random_string]. destruct (secrets_choice alphabet t) as [c t1].
  specialize (IH t1).
  destruct (random_string alphabet n t1) as [s t2]. simpl in *. congruence.
Qed.

Lemma gen_room_code_length n t : String.length (gen_room_code n t).1 = n.
Proof. apply random_string_length. Qed.

(** ** Room creation *)

Lemma create_room_eq w dom fetched :
  create_room w dom fetched =
    (Redirect ("/room/" +:+ (gen_room_code 6 (tape w)).1),
     mkWorld (<[(gen_room_code 6 (tape w)).1 :=
                 mkRoom (normalize_domain dom) fetched [] true]> (ROOMS w))
             (gen_room_code 6 (tape w)).2).
Proof. unfold create_room. by destruct (gen_room_code 6 (tape w)). Qed.





(** ** Leaderboard *)

Lemma player_rows_usernames room :
  List.map r_username (player_rows room) = PyDict.keys (players room).
Proof.
  unfold player_rows, PyDict.items, PyDict.keys.
  induction (players room) as [|[u info] l IH]; simpl; [done | by rewrite IH].
Qed.

Lemma score_le_total x y : score_le x y = true ∨ score_le y x = true.
Proof. unfold score_le. rewrite !Nat.leb_le. lia. Qed.

Lemma score_le_trans x y z :
  score_le x y = true → score_le y z = true → score_le x z = true.
Proof. unfold score_le. rewrite !Nat.leb_le. lia. Qed.

(** C3: the leaderboard holds the rows of the players, sorted by score in
    descending order, and the rows with any one score are in the order of
    the player mapping, which is the join order. *)
Theorem leaderboard_sorted_stable (room : Room) :
  StronglySorted (λ a b, (r_score b ≤ r_score a)%nat) (leaderboard room)
  ∧ leaderboard room ≡ₚ player_rows room
  ∧ List.map r_username (player_rows room) = PyDict.keys (players room)
  ∧ ∀ s, List.filter (λ r, Nat.eqb (r_score r) s) (leaderboard room)
         = List.filter (λ r, Nat.eqb (r_score r) s) (player_rows room).
Proof.
  unfold leaderboard. split_and!.
  - eapply StronglySorted_weaken;
      [| apply sorted_reverse_descending;
         [apply score_le_total | apply score_le_trans]].
    intros a b. unfold score_le. by rewrite Nat.leb_le.
  - apply sorted_perm.
  - apply player_rows_usernames.
  - intros s. apply sorted_filter. intros a b Ha Hb.
    apply Nat.eqb_eq in Ha, Hb. unfold score_le. apply Nat.leb_le. lia.
Qed.

(** ** Player detail *)

Lemma lookup_map {A B : Type} (f : A → B) (l : list A) (i : nat) :
  List.map f l !! i = f <$> (l !! i).
Proof.
  revert i. induction l as [|x l IH]; intros [|i]; simpl; auto.
Qed.

Lemma user_details_absent room username :
  match username with
  | Some u => PyDict.contains u (players room) = false
  | None => True
  end →
  user_details room username = None.
Proof.
  destruct username as [u|]; simpl; [| done].
  intros H%contains_false. rewrite H. by destruct (PyStr.truthy u).
Qed.

(** C2, as the code has it: for an existing room [room_results] never
    fails; for a username that is unset or not a key of the player mapping
    the detail list is empty, and it is for a joined player that the list
    has one entry per question, the placeholder (empty selection, flag
    false, the question's own correct answer) standing at every index
    [i] for which the player has no stored answer under ["q" ++ str(i)]. *)
Theorem room_results_details w code room username :
  ROOMS w !! code = Some room →
  room_results w code username =
    (RoomResultsPage code (leaderboard room) (detailed room username) username
       (length (questions room)), w)
  ∧ (match username with
     | Some u => PyDict.contains u (players room) = false
     | None => True
     end → detailed room username = [])
  ∧ (∀ info, user_details room username = Some info →
       length (detailed room username) = length (questions room)
       ∧ ∀ i q, questions room !! i = Some q →
           PyDict.get ("q" +:+ PyStr.of_nat i) (answers info) = None →
           detailed room username !! i = Some (placeholder q)).
Proof.
  intros Hroom. split_and!.
  - unfold room_results. by rewrite Hroom.
  - intros H. unfold detailed. by rewrite user_details_absent.
  - intros info Hinfo. unfold detailed. rewrite Hinfo. split.
    + by rewrite length_map, length_seq.
    + intros i q Hq Hnone. rewrite lookup_map.
      rewrite lookup_seq_lt by (by eapply lookup_lt_Some).
      simpl. unfold detail_at. by rewrite Hnone, Hq.
Qed.

Lemma room_results_details_witness :
  detailed sample_room (Some "ghost") = []
  ∧ detailed sample_room (Some "alice") !! 0 = Some (placeholder sample_question).
Proof.
  pose proof (room_results_details sample_world "ROOM01" sample_room
                (Some "ghost") eq_refl) as (_ & Habsent & _).
  pose proof (room_results_details sample_world "ROOM01" sample_room
                (Some "alice") eq_refl) as (_ & _ & Hjoined).
  split.
  - apply Habsent. reflexivity.
  - apply (Hjoined (mkPlayer [] false) eq_refl); reflexivity.
Defined.

(** C2, as stated, fails: for a username that is not in the room, and for
    an unset one, the detail list is empty although the room has a
    question. *)
Lemma room_results_unknown_user_no_placeholders :
  room_results sample_world "ROOM01" (Some "ghost")
    = (RoomResultsPage "ROOM01" [mkRow "alice" 0 false] [] (Some "ghost") 1,
       sample_world)
  ∧ room_results sample_world "ROOM01" None
    = (RoomResultsPage "ROOM01" [mkRow "alice" 0 false] [] None 1, sample_world)
  ∧ PyDict.contains "ghost" (players sample_room) = false
  ∧ length (detailed sample_room (Some "ghost")) ≠ length (questions sample_room)
  ∧ length (detailed sample_room None) ≠ length (questions sample_room).
Proof. by vm_compute. Qed.

(** ** Scoring *)

Lemma score_value_flag val :
  is_correct (score_value val)
  = String.eqb (e_selected (score_value val)) (e_correct (score_value val)).
Proof.
  unfold score_value.
  by destruct (PyStr.split_bars val) as [|a [|b [|c [|]]]].
Qed.

Lemma score_value_consistent val : flag_consistent (score_value val).
Proof.
  unfold flag_consistent. rewrite score_value_flag. split.
  - apply String.eqb_eq.
  - intros Hs Hc. apply String.eqb_neq. congruence.
Qed.

Lemma string_app_length (a b : string) :
  String.length (a +:+ b) = String.length a + String.length b.
Proof. induction a as [|c a IH]; simpl; [done | by rewrite IH]. Qed.

Lemma string_app_inj (n s1 s2 : string) : n +:+ s1 = n +:+ s2 → s1 = s2.
Proof. induction n as [|c n IH]; simpl; [done |]. intros [= H]. by apply IH. Qed.

Lemma string_app_assoc (a b c : string) : (a +:+ b) +:+ c = a +:+ b +:+ c.
Proof.
  induction a as [|x a IH]; [done |].
  change ((String x a +:+ b) +:+ c) with (String x ((a +:+ b) +:+ c)).
  by rewrite IH.
Qed.

Lemma split_bars_not_bar c r :
  c ≠ "|"%char →
  PyStr.split_bars (String c r)
  = match PyStr.split_bars r with
    | h :: t => String c h :: t
    | [] => [String c EmptyString]
    end.
Proof.
  intros Hc. destruct c as [[] [] [] [] [] [] [] []]; try reflexivity.
  by destruct Hc.
Qed.

Lemma bar_free_cons c r :
  bar_free (String c r) = true → c ≠ "|"%char ∧ bar_free r = true.
Proof.
  unfold bar_free. simpl. intros H. apply andb_true_iff in H as [Hc Hr].
  split; [| done]. apply negb_true_iff in Hc. by apply Ascii.eqb_neq.
Qed.

Lemma split_bars_bar_free s : bar_free s = true → PyStr.split_bars s = [s].
Proof.
  induction s as [|c r IH]; [done |].
  intros [Hc Hr]%bar_free_cons. rewrite split_bars_not_bar by done.
  by rewrite IH.
Qed.

Lemma split_bars_app s r :
  bar_free s = true →
  PyStr.split_bars (s +:+ "||" +:+ r) = s :: PyStr.split_bars r.
Proof.
  induction s as [|c s IH]; [done |].
  intros [Hc Hs]%bar_free_cons.
  change (String c s +:+ "||" +:+ r) with (String c (s +:+ "||" +:+ r)).
  rewrite split_bars_not_bar by done. by rewrite IH.
Qed.

Lemma score_value_encoded qtext correct selected :
  bar_free qtext = true → bar_free correct = true → bar_free selected = true →
  score_value (encode_answer qtext correct selected)
  = mkEntry qtext correct selected (String.eqb selected correct).
Proof.
  intros Hq Hc Hs. unfold score_value, encode_answer.
  rewrite split_bars_app by done. rewrite split_bars_app by done.
  by rewrite split_bars_bar_free.
Qed.

Lemma encode_answer_truthy qtext correct selected :
  PyStr.truthy (encode_answer qtext correct selected) = true.
Proof.
  unfold PyStr.truthy, encode_answer. apply negb_true_iff, String.eqb_neq.
  intros H. apply (f_equal String.length) in H.
  rewrite !string_app_length in H. simpl in H. lia.
Qed.

Lemma room_answers_Forall (P : Entry → Prop) f ks : ∀ acc,
  (∀ val, P (score_value val)) →
  Forall P (PyDict.values acc) → Forall P (PyDict.values (room_answers f ks acc)).
Proof.
  induction ks as [|key ks IH]; intros acc HP Hacc; simpl; [done |].
  destruct (form_get key f) as [val|]; [| by apply IH].
  destruct (PyStr.truthy val); [| by apply IH].
  apply IH; [done |]. by apply values_set_Forall.
Qed.

Lemma single_answers_Forall (P : Entry → Prop) f ks :
  (∀ val, P (score_value val)) → Forall P (single_answers f ks).
Proof.
  intros HP. induction ks as [|key ks IH]; simpl; [constructor |].
  destruct (form_get key f) as [val|]; [| done].
  destruct (PyStr.truthy val); [by constructor | done].
Qed.

(** C4, as the code has it: in both submit handlers the flag of every
    stored entry is true exactly when the selected option is string-equal
    (case-sensitively) to the correct answer the form carried, so an empty
    selection is marked incorrect whenever that correct answer is not
    empty. *)
Theorem stored_flag_is_equality (f : Form) :
  Forall flag_consistent (PyDict.values (submitted_answers f))
  ∧ Forall flag_consistent
      (single_answers f (PySort.sorted String.leb false (q_keys f))).
Proof.
  split.
  - apply room_answers_Forall; [apply score_value_consistent | constructor].
  - apply single_answers_Forall, score_value_consistent.
Qed.

(** C4, as stated, fails: a value without the two separators is stored
    with an empty selection and the flag true, in both handlers; so is a
    value whose correct and selected parts are both empty. *)
Lemma empty_selection_marked_correct :
  submitted_answers [("username", "alice"); ("q0", "Capital of France?")]
    = [("q0", mkEntry "Capital of France?" "" "" true)]
  ∧ single_player_results [("q0", "Capital of France?"); ("total_questions", "1")]
    = Some (SinglePlayerResultsPage
              [mkEntry "Capital of France?" "" "" true] 1 1)
  ∧ score_value "Capital of France?||||"
    = mkEntry "Capital of France?" "" "" true.
Proof. by vm_compute. Qed.

(** ** Submission *)

Lemma room_submit_ok w code room username info f :
  ROOMS w !! code = Some room →
  form_get "username" f = Some username →
  PyDict.get username (players room) = Some info →
  room_submit w code f =
    (Redirect ("/room/" +:+ code +:+ "/results?username=" +:+ username),
     mkWorld
       (<[code := mkRoom (domain room) (questions room)
                    (PyDict.set username (mkPlayer (submitted_answers f) true)
                       (players room))
                    (created room)]> (ROOMS w))
       (tape w)).
Proof.
  intros Hroom Hu Hinfo. unfold room_submit. by rewrite Hroom, Hu, Hinfo.
Qed.

(** C5: a second submission of a joined player is accepted like the
    first, and the process state after it is the state the second
    submission alone would have produced: the player's answers are those of
    the second form and [submitted] is true. *)
Theorem resubmission_overwrites w code room username info f1 f2 :
  ROOMS w !! code = Some room →
  PyDict.get username (players room) = Some info →
  form_get "username" f1 = Some username →
  form_get "username" f2 = Some username →
  room_submit (room_submit w code f1).2 code f2 =
    (Redirect ("/room/" +:+ code +:+ "/results?username=" +:+ username),
     (room_submit w code f2).2)
  ∧ ∃ room2,
      ROOMS (room_submit (room_submit w code f1).2 code f2).2 !! code = Some room2
      ∧ PyDict.keys (players room2) = PyDict.keys (players room)
      ∧ PyDict.get username (players room2)
        = Some (mkPlayer (submitted_answers f2) true).
Proof.
  intros Hroom Hinfo Hu1 Hu2.
  rewrite (room_submit_ok w code room username info f1) by done.
  rewrite (room_submit_ok w code room username info f2) by done.
  cbn [snd].
  erewrite room_submit_ok;
    [| cbn [ROOMS]; apply lookup_insert_eq | exact Hu2
     | cbn [players]; apply get_set_eq].
  cbn [ROOMS tape domain questions players created snd].
  rewrite insert_insert_eq, set_set. split; [done |].
  eexists. split; [apply lookup_insert_eq |]. cbn [players]. split.
  - apply keys_set_present. by eexists.
  - apply get_set_eq.
Qed.

Lemma resubmission_overwrites_witness :
  let f1 := [("username", "alice"); ("q0", "Capital of France?||Paris||Rome")] in
  let f2 := [("username", "alice"); ("q0", "Capital of France?||Paris||Paris")] in
  room_submit (room_submit sample_world "ROOM01" f1).2 "ROOM01" f2 =
    (Redirect "/room/ROOM01/results?username=alice",
     (room_submit sample_world "ROOM01" f2).2).
Proof.
  exact (proj1 (resubmission_overwrites sample_world "ROOM01" sample_room "alice"
    (mkPlayer [] false)
    [("username", "alice"); ("q0", "Capital of France?||Paris||Rome")]
    [("username", "alice"); ("q0", "Capital of France?||Paris||Paris")]
    eq_refl eq_refl eq_refl eq_refl)).
Defined.

(** ** Failed lookups *)

(** C8: a request for an unknown room code is answered with the
    invalid-code page, and a quiz or submit request for a username that has
    not joined the room is redirected to the join page; in both cases the
    process state is returned as it was. *)
Theorem failed_request_keeps_world w code :
  (ROOMS w !! code = None →
     ∀ username f ou,
       room_join_page w code = (InvalidRoomCode, w)
       ∧ room_join w code username = (InvalidRoomCode, w)
       ∧ room_quiz w code username = (InvalidRoomCode, w)
       ∧ room_submit w code f = (InvalidRoomCode, w)
       ∧ room_results w code ou = (InvalidRoomCode, w))
  ∧ (∀ room, ROOMS w !! code = Some room →
       (∀ username, PyDict.contains username (players room) = false →
          room_quiz w code username = (Redirect ("/room/" +:+ code), w))
       ∧ (∀ f, match form_get "username" f with
               | Some u => PyDict.contains u (players room) = false
               | None => True
               end →
          room_submit w code f = (Redirect ("/room/" +:+ code), w))).
Proof.
  split.
  - intros Hnone username f ou.
    unfold room_join_page, room_join, room_quiz, room_submit, room_results.
    by rewrite Hnone.
  - intros room Hroom. split.
    + intros username Hu. unfold room_quiz. by rewrite Hroom, Hu.
    + intros f Hf. unfold room_submit. rewrite Hroom.
      destruct (form_get "username" f) as [u|]; [| done].
      apply contains_false in Hf. by rewrite Hf.
Qed.

Lemma failed_request_keeps_world_witness :
  room_join_page empty_world "BADCODE" = (InvalidRoomCode, empty_world)
  ∧ room_submit sample_world "ROOM01" [("username", "ghost"); ("q0", "a||b||b")]
    = (Redirect "/room/ROOM01", sample_world).
Proof.
  split.
  - exact (proj1 (proj1 (failed_request_keeps_world empty_world "BADCODE")
                    eq_refl "x" [] None)).
  - exact (proj2 (proj2 (failed_request_keeps_world sample_world "ROOM01")
                    sample_room eq_refl)
             [("username", "ghost"); ("q0", "a||b||b")] eq_refl).
Defined.

(** ** Questions *)

Lemma questions_insert_same (m : gmap string Room) code room room' c :
  m !! code = Some room →
  questions room' = questions room →
  questions <$> (<[code := room']> m !! c) = questions <$> (m !! c).
Proof.
  intros Hroom Hq. destruct (decide (code = c)) as [->|Hne].
  - rewrite lookup_insert_eq, Hroom. simpl. by rewrite Hq.
  - by rewrite lookup_insert_ne.
Qed.

(** C9: joining, submitting, asking for the results (leaderboard and
    player detail), opening the quiz and opening the join page leave the
    question list of every registered room as it was. *)
Theorem questions_never_change w code c username f ou :
  questions <$> (ROOMS (room_join w code username).2 !! c)
    = questions <$> (ROOMS w !! c)
  ∧ questions <$> (ROOMS (room_submit w code f).2 !! c)
    = questions <$> (ROOMS w !! c)
  ∧ questions <$> (ROOMS (room_results w code ou).2 !! c)
    = questions <$> (ROOMS w !! c)
  ∧ questions <$> (ROOMS (room_quiz w code username).2 !! c)
    = questions <$> (ROOMS w !! c)
  ∧ questions <$> (ROOMS (room_join_page w code).2 !! c)
    = questions <$> (ROOMS w !! c).
Proof.
  unfold room_join, room_submit, room_results, room_quiz, room_join_page.
  destruct (ROOMS w !! code) as [room|] eqn:Hroom; [| done].
  split_and!; try done.
  - destruct (pick_name room username (tape w)) as [uname t]. cbn [snd ROOMS].
    by eapply questions_insert_same.
  - destruct (form_get "username" f) as [u|]; [| done].
    destruct (PyDict.get u (players room)) as [info|]; [| done].
    cbn [snd ROOMS]. by eapply questions_insert_same.
  - by destruct (PyDict.contains username (players room)).
Qed.

(** ** Joining *)

Lemma suffixed_ne (n s : string) : n +:+ "_" +:+ s ≠ n.
Proof.
  intros H. apply (f_equal String.length) in H.
  rewrite string_app_length in H. simpl in H. lia.
Qed.

Lemma drop_prefix_app (n s : string) : drop_prefix n (n +:+ s) = Some s.
Proof.
  induction n as [|c n IH]; simpl; [by destruct s |].
  by rewrite Ascii.eqb_refl.
Qed.

Lemma secrets_choice_digit t :
  PyStr.isdigit (secrets_choice PyStr.digits t).1 = true.
Proof.
  unfold secrets_choice. cbn [fst].
  change (String.length PyStr.digits) with 10.
  assert (H : draws t (pos t) `mod` 10 < 10) by (apply Nat.mod_upper_bound; lia).
  revert H. generalize (draws t (pos t) `mod` 10). intros i Hi.
  do 10 (destruct i as [|i]; [reflexivity |]). lia.
Qed.

Lemma random_digits_3 t :
  ∃ d1 d2 d3,
    (random_string PyStr.digits 3 t).1
      = String d1 (String d2 (String d3 EmptyString))
    ∧ PyStr.isdigit d1 = true ∧ PyStr.isdigit d2 = true ∧ PyStr.isdigit d3 = true.
Proof.
  cbn [random_string].
  pose proof (secrets_choice_digit t) as H1.
  destruct (secrets_choice PyStr.digits t) as [d1 t1].
  pose proof (secrets_choice_digit t1) as H2.
  destruct (secrets_choice PyStr.digits t1) as [d2 t2].
  pose proof (secrets_choice_digit t2) as H3.
  destruct (secrets_choice PyStr.digits t2) as [d3 t3].
  by exists d1, d2, d3.
Qed.

Lemma suffixed_matches (n : string) t :
  matches_suffixed n (n +:+ "_" +:+ (random_string PyStr.digits 3 t).1) = true.
Proof.
  destruct (random_digits_3 t) as (d1 & d2 & d3 & -> & H1 & H2 & H3).
  unfold matches_suffixed. rewrite drop_prefix_app.
  change ("_" +:+ String d1 (String d2 (String d3 EmptyString)))
    with (String "_"%char (String d1 (String d2 (String d3 EmptyString)))).
  cbv beta iota. by rewrite H1, H2, H3.
Qed.

Lemma pick_name_present room username t :
  PyDict.contains (display_name username) (players room) = true →
  pick_name room username t =
    (display_name username +:+ "_" +:+ (random_string PyStr.digits 3 t).1,
     (random_string PyStr.digits 3 t).2).
Proof.
  intros H. unfold pick_name. rewrite H.
  by destruct (random_string PyStr.digits 3 t).
Qed.

Lemma pick_name_absent room username t :
  PyDict.contains (display_name username) (players room) = false →
  pick_name room username t = (display_name username, t).
Proof. intros H. unfold pick_name. by rewrite H. Qed.

Lemma room_join_ok w code room username :
  ROOMS w !! code = Some room →
  room_join w code username =
    (Redirect ("/room/" +:+ code +:+ "/quiz?username="
               +:+ (pick_name room username (tape w)).1),
     mkWorld
       (<[code := mkRoom (domain room) (questions room)
                    (PyDict.set (pick_name room username (tape w)).1
                       (mkPlayer [] false) (players room))
                    (created room)]> (ROOMS w))
       (pick_name room username (tape w)).2).
Proof.
  intros Hroom. unfold room_join. rewrite Hroom.
  by destruct (pick_name room username (tape w)).
Qed.

(** A name that is new to the room goes to the end of the join order. *)
Lemma room_join_new_name_last w code room username :
  ROOMS w !! code = Some room →
  PyDict.contains (display_name username) (players room) = false →
  ∃ room1, ROOMS (room_join w code username).2 !! code = Some room1
    ∧ PyDict.keys (players room1)
      = (PyDict.keys (players room) ++ [display_name username])%list.
Proof.
  intros Hroom Habs. rewrite (room_join_ok w code room) by done.
  rewrite pick_name_absent by done. cbn [fst snd ROOMS].
  eexists. split; [apply lookup_insert_eq |]. cbn [players].
  rewrite set_fresh by (by apply contains_false).
  unfold PyDict.keys. by rewrite map_app.
Qed.

(** X22: write [n] for the requested name after trimming (["Player"]
    when nothing is left).  A join stores [n] itself when [n] is not yet a
    key of the player mapping, and otherwise [n] followed by an underscore
    and three random digits, a name different from [n].  Of two successive
    joins with the same name the second always stores a name of the form
    [n_ddd]; the two stored names differ when [n] was not a key before the
    first join, and otherwise exactly when the two suffixes drawn
    differ. *)
Theorem rejoin_gets_suffixed_name w code room username :
  ROOMS w !! code = Some room →
  let n := display_name username in
  let u1 := (pick_name room username (tape w)).1 in
  let w1 := (room_join w code username).2 in
  ∃ room1,
    room_join w code username
      = (Redirect ("/room/" +:+ code +:+ "/quiz?username=" +:+ u1), w1)
    ∧ ROOMS w1 !! code = Some room1
    ∧ players room1 = PyDict.set u1 (mkPlayer [] false) (players room)
    ∧ (PyDict.contains n (players room) = true →
         u1 ≠ n ∧ matches_suffixed n u1 = true)
    ∧ (PyDict.contains n (players room) = false → u1 = n)
    ∧ let u2 := (pick_name room1 username (tape w1)).1 in
      room_join w1 code username
        = (Redirect ("/room/" +:+ code +:+ "/quiz?username=" +:+ u2),
           (room_join w1 code username).2)
      ∧ u2 ≠ n
      ∧ matches_suffixed n u2 = true
      ∧ (PyDict.contains n (players room) = false → u1 ≠ u2)
      ∧ (PyDict.contains n (players room) = true →
           (u1 ≠ u2 ↔
            (random_string PyStr.digits 3 (tape w)).1
              ≠ (random_string PyStr.digits 3 (tape w1)).1)).
Proof.
  intros Hroom n u1 w1.
  pose proof (room_join_ok w code room username Hroom) as Hj1.
  fold u1 in Hj1.
  set (room1 := mkRoom (domain room) (questions room)
                  (PyDict.set u1 (mkPlayer [] false) (players room))
                  (created room)) in *.
  assert (Hw1 : ROOMS w1 !! code = Some room1).
  { unfold w1. rewrite Hj1. cbn [snd ROOMS]. apply lookup_insert_eq. }
  assert (Hn1 : PyDict.contains n (players room1) = true).
  { apply contains_true. cbn [room1 players].
    destruct (PyDict.contains n (players room)) eqn:Hc.
    - destruct (decide (u1 = n)) as [->|Hne].
      + rewrite get_set_eq. by eexists.
      + rewrite get_set_ne by done. by apply contains_true.
    - unfold u1. rewrite pick_name_absent by done. cbn [fst].
      fold n. rewrite get_set_eq. by eexists. }
  assert (Hu2 : (pick_name room1 username (tape w1)).1
                = n +:+ "_" +:+ (random_string PyStr.digits 3 (tape w1)).1).
  { by rewrite pick_name_present. }
  exists room1. split_and!.
  - unfold w1. by rewrite Hj1.
  - done.
  - done.
  - intros Hc. unfold u1. rewrite pick_name_present by done. cbn [fst].
    split; [apply suffixed_ne | apply suffixed_matches].
  - intros Hc. unfold u1. by rewrite pick_name_absent.
  - intros u2. unfold u2. rewrite Hu2. split_and!.
    + rewrite (room_join_ok w1 code room1 username Hw1). cbn [snd].
      by rewrite Hu2.
    + apply suffixed_ne.
    + apply suffixed_matches.
    + intros Hc. unfold u1. rewrite pick_name_absent by done. cbn [fst].
      intros H. symmetry in H. by apply suffixed_ne in H.
    + intros Hc. unfold u1. rewrite pick_name_present by done. cbn [fst].
      fold n. split.
      * intros Hne Heq. apply Hne. by rewrite Heq.
      * intros Hne Heq. apply Hne.
        apply string_app_inj in Heq. by apply string_app_inj in Heq.
Qed.

Lemma rejoin_gets_suffixed_name_witness :
  matches_suffixed "bob"
    (pick_name
       (mkRoom "general" [sample_question]
          [("alice", mkPlayer [] false); ("bob", mkPlayer [] false)] true)
       " bob" zero_tape).1 = true.
Proof.
  destruct (rejoin_gets_suffixed_name sample_world "ROOM01" sample_room " bob"
              eq_refl) as (room1 & _ & Hw1 & _ & _ & _ & _ & _ & Hm & _).
  vm_compute in Hw1. injection Hw1 as <-. exact Hm.
Defined.

(** C6: the code misses what its comment, "ensure username unique in
    room", announces.  In a room that already has an "alice", two
    successive joins as "alice" that draw the same three digits are both
    redirected with the name "alice_000": the second join stores a name
    that is already stored, and the room has two players, not three. *)
Lemma rejoin_same_suffix_collides :
  let w1 := (room_join sample_world "ROOM01" "alice").2 in
  let w2 := (room_join w1 "ROOM01" "alice").2 in
  (room_join sample_world "ROOM01" "alice").1
    = Redirect "/room/ROOM01/quiz?username=alice_000"
  ∧ (room_join w1 "ROOM01" "alice").1
    = Redirect "/room/ROOM01/quiz?username=alice_000"
  ∧ (λ r, PyDict.keys (players r)) <$> (ROOMS w2 !! "ROOM01")
    = Some ["alice"; "alice_000"].
Proof. by vm_compute. Qed.

(** ** Counting correct entries *)

Lemma filter_length_perm {A : Type} (p : A → bool) (l l' : list A) :
  l ≡ₚ l' → length (List.filter p l) = length (List.filter p l').
Proof.
  induction 1 as [|x l l' _ IH|x y l|l l' l'' _ IH1 _ IH2]; simpl.
  - done.
  - destruct (p x); simpl; by rewrite IH.
  - by destruct (p x), (p y).
  - by rewrite IH1.
Qed.


Lemma answered_right_value f key val :
  form_get key f = Some val →
  PyStr.truthy val = true →
  answered_right f key = is_correct (score_value val).
Proof.
  intros Hg Ht. unfold answered_right.
  by rewrite Hg, Ht, score_value_flag.
Qed.

Lemma answered_right_unanswered f key :
  answered f key = false → answered_right f key = false.
Proof.
  unfold answered, answered_right.
  destruct (form_get key f) as [val|]; [| done]. by intros ->.
Qed.

Lemma answered_right_encoded f key qtext correct selected :
  form_get key f = Some (encode_answer qtext correct selected) →
  bar_free qtext = true → bar_free correct = true → bar_free selected = true →
  answered_right f key = String.eqb selected correct.
Proof.
  intros Hg Hq Hc Hs. unfold answered_right.
  rewrite Hg, encode_answer_truthy, score_value_encoded by done. done.
Qed.

Lemma answered_right_missing f key :
  form_get key f = None ∨ form_get key f = Some EmptyString →
  answered_right f key = false.
Proof. unfold answered_right. by intros [-> | ->]. Qed.

Lemma single_answers_length f ks :
  length (single_answers f ks) = length (List.filter (answered f) ks).
Proof.
  induction ks as [|key ks IH]; simpl; [done |]. unfold answered at 1.
  destruct (form_get key f) as [val|]; [| done].
  destruct (PyStr.truthy val); simpl; by rewrite IH.
Qed.





(** ** Leaderboard scores *)

Lemma count_correct_app (l1 l2 : list Entry) :
  count_correct (l1 ++ l2) = count_correct l1 + count_correct l2.
Proof. unfold count_correct. by rewrite List.filter_app, length_app. Qed.

Lemma q_keys_NoDup f : NoDup (q_keys f).
Proof.
  apply NoDup_ListNoDup, List.NoDup_filter, NoDup_ListNoDup, of_items_NoDup.
Qed.

(** The answers dictionary gets one entry per answered key, so its number
    of correct entries is the number of keys answered right. *)
Lemma room_answers_count f ks : ∀ acc,
  NoDup ks →
  (∀ k, k ∈ ks → k ∉ PyDict.keys acc) →
  count_correct (PyDict.values (room_answers f ks acc))
  = count_correct (PyDict.values acc)
    + length (List.filter (answered_right f) ks).
Proof.
  induction ks as [|key ks IH]; intros acc Hnd Hdisj; simpl; [lia |].
  apply NoDup_cons in Hnd as [Hkey Hnd].
  assert (Hrest : ∀ k, k ∈ ks → k ∉ PyDict.keys acc)
    by (intros k Hk; apply Hdisj; by right).
  destruct (form_get key f) as [val|] eqn:Hg.
  - destruct (PyStr.truthy val) eqn:Ht.
    + rewrite (answered_right_value f key val Hg Ht).
      assert (Hfresh : PyDict.get key acc = None)
        by (apply get_None_keys, Hdisj; left).
      rewrite IH; [| done |].
      * rewrite set_fresh by done. unfold PyDict.values at 1.
        rewrite map_app, count_correct_app. unfold count_correct at 2. simpl.
        destruct (is_correct (score_value val)); simpl;
          unfold PyDict.values; lia.
      * intros k Hk. rewrite set_fresh by done. unfold PyDict.keys.
        rewrite map_app. simpl. intros Hin.
        apply elem_of_app in Hin as [Hin | Hin].
        -- by apply (Hrest k).
        -- apply list_elem_of_singleton in Hin. by subst.
    + rewrite answered_right_unanswered by (unfold answered; by rewrite Hg).
      by apply IH.
  - rewrite answered_right_unanswered by (unfold answered; by rewrite Hg).
    by apply IH.
Qed.

Lemma submitted_answers_count f :
  count_correct (PyDict.values (submitted_answers f))
  = length (List.filter (answered_right f) (q_keys f)).
Proof.
  unfold submitted_answers. rewrite room_answers_count.
  - done.
  - apply q_keys_NoDup.
  - intros k _. apply not_elem_of_nil.
Qed.

Lemma set_elem {V : Type} (k : string) (v : V) (d : list (string * V)) :
  (k, v) ∈ PyDict.set k v d.
Proof.
  induction d as [|[k' v'] d IH]; simpl; [by left |].
  destruct (String.eqb k k'); [by left | by right].
Qed.

Lemma get_elem {V : Type} (k : string) (v : V) (d : list (string * V)) :
  PyDict.get k d = Some v → (k, v) ∈ d.
Proof.
  induction d as [|[k' v'] d IH]; simpl; [done |].
  destruct (String.eqb_spec k k') as [->|Hne].
  - intros [= ->]. by left.
  - intros H. right. by apply IH.
Qed.

(** C10: every row of the leaderboard carries, as its score, the number
    of entries of that player's stored answers whose flag is true.  After
    a submission that number is the number of ["q"] fields of the form
    that are counted, however many questions the room has; a field
    carrying [question||correct||selected] is counted exactly when its
    selected part equals the correct part the form itself carries, and a
    missing or empty field never is; and there is a submission after
    which the score is larger than the number of questions. *)
Theorem leaderboard_score_counts_form_entries :
  (∀ room row, row ∈ leaderboard room →
     ∃ info, (r_username row, info) ∈ players room
       ∧ r_score row = count_correct (PyDict.values (answers info))
       ∧ r_submitted row = submitted info)
  ∧ (∀ w code room username info f,
       ROOMS w !! code = Some room →
       form_get "username" f = Some username →
       PyDict.get username (players room) = Some info →
       ∃ room',
         ROOMS (room_submit w code f).2 !! code = Some room'
         ∧ questions room' = questions room
         ∧ PyDict.get username (players room')
           = Some (mkPlayer (submitted_answers f) true)
         ∧ mkRow username
             (length (List.filter (answered_right f) (q_keys f))) true
           ∈ leaderboard room')
  ∧ (∀ f key qtext correct selected,
       form_get key f = Some (encode_answer qtext correct selected) →
       bar_free qtext = true → bar_free correct = true →
       bar_free selected = true →
       answered_right f key = String.eqb selected correct)
  ∧ (∀ f key, form_get key f = None ∨ form_get key f = Some EmptyString →
       answered_right f key = false)
  ∧ (∃ f room',
       ROOMS (room_submit sample_world "ROOM01" f).2 !! "ROOM01" = Some room'
       ∧ ∃ row, row ∈ leaderboard room'
           ∧ length (questions room') < r_score row).
Proof.
  split_and!.
  - intros room row Hrow. unfold leaderboard in Hrow.
    rewrite sorted_perm in Hrow. unfold player_rows, PyDict.items in Hrow.
    apply list_elem_of_In, in_map_iff in Hrow as ([u info] & <- & Hin).
    exists info. split; [by apply list_elem_of_In | done].
  - intros w code room username info f Hroom Hu Hinfo.
    rewrite (room_submit_ok w code room username info f) by done.
    cbn [snd ROOMS]. eexists. split; [apply lookup_insert_eq |].
    cbn [questions players]. split_and!; [done | apply get_set_eq |].
    unfold leaderboard. rewrite sorted_perm.
    unfold player_rows, PyDict.items. cbn [players].
    apply list_elem_of_In, in_map_iff.
    exists (username, mkPlayer (submitted_answers f) true). split.
    + cbn [answers submitted]. by rewrite submitted_answers_count.
    + apply list_elem_of_In, set_elem.
  - intros f key qtext correct selected. apply answered_right_encoded.
  - intros f key. apply answered_right_missing.
  - exists [("username", "alice"); ("q0", "Capital of France?||Paris||Paris");
            ("q1", "1 + 1?||2||2")].
    eexists. split; [by vm_compute |].
    exists (mkRow "alice" 2 true). split; [| simpl; lia].
    vm_compute. by left.
Qed.

Lemma leaderboard_score_counts_form_entries_witness :
  (∃ room',
     ROOMS (room_submit sample_world "ROOM01" mixed_form).2 !! "ROOM01"
       = Some room'
     ∧ length (questions room') = 1
     ∧ mkRow "alice" 2 true ∈ leaderboard room')
  ∧ answered_right mixed_form "q0" = true
  ∧ answered_right mixed_form "q2" = false
  ∧ answered_right mixed_form "q3" = false.
Proof.
  split_and!.
  - destruct (proj1 (proj2 leaderboard_score_counts_form_entries)
                sample_world "ROOM01" sample_room "alice" (mkPlayer [] false)
                mixed_form eq_refl eq_refl eq_refl)
      as (room' & Hroom' & Hq & _ & Hrow).
    exists room'. split; [exact Hroom' |]. split; [by rewrite Hq | exact Hrow].
  - exact (proj1 (proj2 (proj2 leaderboard_score_counts_form_entries))
             mixed_form "q0" "Capital of France?" "Rome" "Rome"
             eq_refl eq_refl eq_refl eq_refl).
  - exact (proj1 (proj2 (proj2 leaderboard_score_counts_form_entries))
             mixed_form "q2" "2 + 2?" "4" "5" eq_refl eq_refl eq_refl eq_refl).
  - exact (proj1 (proj2 (proj2 (proj2 leaderboard_score_counts_form_entries)))
             mixed_form "q3" (or_intror eq_refl)).
Defined.

(** * Further properties of the handlers *)

(** ** Room codes *)

Lemma string_forall_get (p : ascii → bool) (s : string) : ∀ i c,
  string_forall p s = true → String.get i s = Some c → p c = true.
Proof.
  induction s as [|a s IH]; intros i c Hall Hget; [done |].
  simpl in Hall. apply andb_true_iff in Hall as [Ha Hs].
  destruct i as [|i]; simpl in Hget.
  - by injection Hget as <-.
  - by eapply IH.
Qed.

Lemma string_get_lt (s : string) : ∀ i,
  i < String.length s → is_Some (String.get i s).
Proof.
  induction s as [|a s IH]; intros i Hi; simpl in *; [lia |].
  destruct i as [|i]; [by eexists | apply IH; lia].
Qed.

Lemma secrets_choice_forall (p : ascii → bool) alphabet t :
  alphabet ≠ EmptyString →
  string_forall p alphabet = true →
  p (secrets_choice alphabet t).1 = true.
Proof.
  intros Hne Hall. unfold secrets_choice. cbn [fst].
  assert (Hlen : String.length alphabet ≠ 0) by (by destruct alphabet).
  destruct (string_get_lt alphabet
              (draws t (pos t) `mod` String.length alphabet)) as [c Hc].
  { by apply Nat.mod_upper_bound. }
  rewrite Hc. by eapply string_forall_get.
Qed.

Lemma random_string_forall (p : ascii → bool) alphabet n : ∀ t,
  alphabet ≠ EmptyString →
  string_forall p alphabet = true →
  string_forall p (random_string alphabet n t).1 = true.
Proof.
  induction n as [|n IH]; intros t Hne Hall; [done |].
  cbn [random_string].
  pose proof (secrets_choice_forall p alphabet t Hne Hall) as Hc.
  destruct (secrets_choice alphabet t) as [c t1]. cbn [fst] in Hc.
  specialize (IH t1 Hne Hall).
  destruct (random_string alphabet n t1) as [s t2]. cbn [fst] in *.
  simpl. by rewrite Hc, IH.
Qed.

Lemma random_string_tape alphabet n : ∀ t,
  (random_string alphabet n t).2 = mkTape (draws t) (pos t + n).
Proof.
  induction n as [|n IH]; intros t; cbn [random_string].
  - destruct t as [d p]. cbn. f_equal. lia.
  - unfold secrets_choice. specialize (IH (mkTape (draws t) (S (pos t)))).
    destruct (random_string alphabet n (mkTape (draws t) (S (pos t)))) as [s t2].
    cbn [snd] in *. rewrite IH. cbn. f_equal. lia.
Qed.

(** X1: a generated code has the requested length, consists of upper-case
    letters and digits only, and takes exactly one draw per character. *)
Theorem gen_room_code_shape n t :
  String.length (gen_room_code n t).1 = n
  ∧ string_forall code_char (gen_room_code n t).1 = true
  ∧ (gen_room_code n t).2 = mkTape (draws t) (pos t + n).
Proof.
  split_and!.
  - apply gen_room_code_length.
  - unfold gen_room_code. by apply random_string_forall.
  - apply random_string_tape.
Qed.

(** ** Creating and opening a room *)

Lemma normalize_domain_known dom : normalize_domain dom ∈ PyDict.keys CATEGORIES.
Proof.
  unfold normalize_domain.
  destruct (PyDict.contains dom CATEGORIES) eqn:Hc.
  - apply contains_true in Hc as [n Hn].
    destruct (decide (dom ∈ PyDict.keys CATEGORIES)) as [|Hnot]; [done |].
    apply get_None_keys in Hnot. congruence.
  - simpl. set_solver.
Qed.

(** X2: the code in the redirect of [create_room] opens the room just
    made: its join page shows the normalised domain, which is one of the
    three categories, and the number of questions fetched, and its results
    page has an empty leaderboard and no details. *)
Theorem create_room_then_open w dom fetched :
  (create_room w dom fetched).1
    = Redirect ("/room/" +:+ (gen_room_code 6 (tape w)).1)
  ∧ room_join_page (create_room w dom fetched).2 (gen_room_code 6 (tape w)).1
    = (RoomJoinPage (gen_room_code 6 (tape w)).1 (normalize_domain dom)
         (length fetched),
       (create_room w dom fetched).2)
  ∧ normalize_domain dom ∈ ["general"; "tech"; "movies"]
  ∧ room_results (create_room w dom fetched).2 (gen_room_code 6 (tape w)).1 None
    = (RoomResultsPage (gen_room_code 6 (tape w)).1 [] [] None (length fetched),
       (create_room w dom fetched).2).
Proof.
  rewrite create_room_eq. cbn [fst snd].
  unfold room_join_page, room_results. cbn [ROOMS].
  rewrite lookup_insert_eq. split_and!; try done.
  apply normalize_domain_known.
Qed.

(** ** What a request leaves alone *)

Lemma keys_set_mono {V : Type} (k k' : string) (v : V) (d : list (string * V)) :
  k ∈ PyDict.keys d → k ∈ PyDict.keys (PyDict.set k' v d).
Proof.
  intros Hk. destruct (PyDict.get k' d) eqn:Hg.
  - rewrite keys_set_present; [done | by eexists].
  - rewrite set_fresh by done. unfold PyDict.keys in *.
    rewrite map_app. apply elem_of_app. by left.
Qed.

(** X3: no request unregisters a room code; and a request other than a
    room creation leaves the domain and the questions of every room as
    they were and removes no player. *)
Theorem rooms_and_players_persist w r c room :
  ROOMS w !! c = Some room →
  ∃ room',
    ROOMS (handle w r).2 !! c = Some room'
    ∧ (is_create r = false →
         domain room' = domain room
         ∧ questions room' = questions room
         ∧ ∀ k, k ∈ PyDict.keys (players room) → k ∈ PyDict.keys (players room')).
Proof.
  intros Hc.
  assert (Hsame : ∃ room', ROOMS w !! c = Some room'
            ∧ (is_create r = false →
                 domain room' = domain room ∧ questions room' = questions room
                 ∧ ∀ k, k ∈ PyDict.keys (players room)
                        → k ∈ PyDict.keys (players room')))
    by (by exists room).
  destruct r as [dom fetched|code|code username|code username|code f|code ou];
    cbn [handle].
  - rewrite create_room_eq. cbn [snd ROOMS].
    destruct (decide ((gen_room_code 6 (tape w)).1 = c)) as [->|Hne].
    + rewrite lookup_insert_eq. eexists. split; [done | done].
    + rewrite lookup_insert_ne by done. exists room. split; [done | done].
  - unfold room_join_page. by destruct (ROOMS w !! code).
  - unfold room_join. destruct (ROOMS w !! code) as [room0|] eqn:Hcode; [| done].
    destruct (pick_name room0 username (tape w)) as [uname t]. cbn [snd ROOMS].
    destruct (decide (code = c)) as [->|Hne].
    + rewrite lookup_insert_eq. eexists. split; [done |]. intros _.
      rewrite Hc in Hcode. injection Hcode as <-. cbn.
      split_and!; [done | done |]. intros k Hk. by apply keys_set_mono.
    + by rewrite lookup_insert_ne.
  - unfold room_quiz. destruct (ROOMS w !! code) as [room0|]; [| done].
    by destruct (PyDict.contains username (players room0)).
  - unfold room_submit. destruct (ROOMS w !! code) as [room0|] eqn:Hcode; [| done].
    destruct (form_get "username" f) as [u|]; [| done].
    destruct (PyDict.get u (players room0)) as [info|]; [| done].
    cbn [snd ROOMS]. destruct (decide (code = c)) as [->|Hne].
    + rewrite lookup_insert_eq. eexists. split; [done |]. intros _.
      rewrite Hc in Hcode. injection Hcode as <-. cbn.
      split_and!; [done | done |]. intros k Hk. by apply keys_set_mono.
    + by rewrite lookup_insert_ne.
  - unfold room_results. by destruct (ROOMS w !! code).
Qed.

Lemma rooms_and_players_persist_witness :
  ∃ room',
    ROOMS (handle sample_world (ReqJoin "ROOM01" "bob")).2 !! "ROOM01" = Some room'
    ∧ questions room' = [sample_question]
    ∧ "alice" ∈ PyDict.keys (players room').
Proof.
  destruct (rooms_and_players_persist sample_world (ReqJoin "ROOM01" "bob")
              "ROOM01" sample_room eq_refl) as (room' & Hroom' & Hkeep).
  destruct (Hkeep eq_refl) as (_ & Hq & Hk).
  exists room'. split_and!; [done | done |]. apply Hk. by left.
Defined.

(** X4: joining or submitting in one room leaves every other room exactly
    as it was, and creating a room touches no code but the one drawn. *)
Theorem other_rooms_untouched w code c username f dom fetched :
  (c ≠ code →
     ROOMS (room_join w code username).2 !! c = ROOMS w !! c
     ∧ ROOMS (room_submit w code f).2 !! c = ROOMS w !! c)
  ∧ (c ≠ (gen_room_code 6 (tape w)).1 →
       ROOMS (create_room w dom fetched).2 !! c = ROOMS w !! c).
Proof.
  split.
  - intros Hne. unfold room_join, room_submit.
    destruct (ROOMS w !! code) as [room|]; [| done]. split.
    + destruct (pick_name room username (tape w)). cbn [snd ROOMS].
      by rewrite lookup_insert_ne.
    + destruct (form_get "username" f) as [u|]; [| done].
      destruct (PyDict.get u (players room)); [| done].
      cbn [snd ROOMS]. by rewrite lookup_insert_ne.
  - intros Hne. rewrite create_room_eq. cbn [snd ROOMS].
    by rewrite lookup_insert_ne.
Qed.

Lemma other_rooms_untouched_witness :
  ROOMS (room_join sample_world "ROOM02" "bob").2 !! "ROOM01" = Some sample_room
  ∧ ROOMS (create_room sample_world "tech" []).2 !! "ROOM01" = Some sample_room.
Proof.
  pose proof (other_rooms_untouched sample_world "ROOM02" "ROOM01" "bob" []
                "tech" []) as [H1 _].
  pose proof (other_rooms_untouched sample_world "ROOM01" "ROOM01" "bob" []
                "tech" []) as [_ H2].
  split.
  - exact (proj1 (H1 ltac:(discriminate))).
  - exact (H2 ltac:(vm_compute; discriminate)).
Defined.

Lemma pages_are_read_only_aux w code username ou :
  (room_join_page w code).2 = w
  ∧ (room_quiz w code username).2 = w
  ∧ (room_results w code ou).2 = w.
Proof.
  unfold room_join_page, room_quiz, room_results.
  destruct (ROOMS w !! code) as [room|]; [| done].
  split_and!; try done.
  by destruct (PyDict.contains username (players room)).
Qed.

(** ** After a join *)

Lemma truthy_nonempty (s : string) : PyStr.truthy s = true ↔ s ≠ EmptyString.
Proof.
  unfold PyStr.truthy. destruct (String.eqb_spec s EmptyString); split; done.
Qed.

Lemma display_name_nonempty username : display_name username ≠ EmptyString.
Proof.
  unfold display_name. destruct (PyStr.truthy (PyStr.strip username)) eqn:Ht.
  - by apply truthy_nonempty.
  - done.
Qed.

Lemma pick_name_nonempty room username t :
  (pick_name room username t).1 ≠ EmptyString.
Proof.
  destruct (PyDict.contains (display_name username) (players room)) eqn:Hc.
  - rewrite pick_name_present by done. cbn [fst]. intros H.
    apply (f_equal String.length) in H. rewrite string_app_length in H.
    simpl in H. lia.
  - rewrite pick_name_absent by done. apply display_name_nonempty.
Qed.

Lemma detailed_no_answers room u info :
  PyStr.truthy u = true →
  PyDict.get u (players room) = Some info →
  answers info = [] →
  detailed room (Some u) = List.map placeholder (questions room).
Proof.
  intros Ht Hinfo Hnil. unfold detailed, user_details. rewrite Ht, Hinfo.
  apply list_eq. intros i. rewrite !lookup_map.
  destruct (questions room !! i) as [q|] eqn:Hq.
  - rewrite lookup_seq_lt by (by eapply lookup_lt_Some). simpl.
    unfold detail_at. by rewrite Hnil, Hq.
  - rewrite lookup_seq_ge; [done |]. by apply lookup_ge_None.
Qed.

(** X5: a join into an existing room answers with a redirect to
    [/room/<code>/quiz?username=<name>], where the name is the one it
    stored, appended as it is, without URL-encoding.  A quiz request that
    carries exactly the stored name opens the quiz page with the room's
    questions; the player is stored with no answers and not submitted,
    stands on the leaderboard with score 0, and the detail list for that
    name is one placeholder per question. *)
Theorem join_then_quiz_and_results w code room username :
  ROOMS w !! code = Some room →
  let u := (pick_name room username (tape w)).1 in
  let w1 := (room_join w code username).2 in
  (room_join w code username).1
    = Redirect ("/room/" +:+ code +:+ "/quiz?username=" +:+ u)
  ∧ room_quiz w1 code u
    = (RoomQuizPage code u (questions room) (length (questions room)), w1)
  ∧ ∃ room1,
      ROOMS w1 !! code = Some room1
      ∧ PyDict.get u (players room1) = Some (mkPlayer [] false)
      ∧ mkRow u 0 false ∈ leaderboard room1
      ∧ detailed room1 (Some u) = List.map placeholder (questions room).
Proof.
  intros Hroom u w1. unfold w1.
  rewrite (room_join_ok w code room username Hroom). fold u. cbn [fst snd].
  set (room1 := mkRoom (domain room) (questions room)
                  (PyDict.set u (mkPlayer [] false) (players room))
                  (created room)).
  assert (Hget : PyDict.get u (players room1) = Some (mkPlayer [] false))
    by apply get_set_eq.
  split_and!.
  - done.
  - unfold room_quiz. cbn [ROOMS]. rewrite lookup_insert_eq.
    fold room1. unfold PyDict.contains. by rewrite Hget.
  - exists room1. split_and!.
    + cbn [ROOMS]. apply lookup_insert_eq.
    + done.
    + unfold leaderboard. rewrite sorted_perm.
      unfold player_rows, PyDict.items. apply list_elem_of_In, in_map_iff.
      exists (u, mkPlayer [] false). split; [done |].
      apply list_elem_of_In, set_elem.
    + apply (detailed_no_answers room1 u (mkPlayer [] false)); [| done | done].
      apply truthy_nonempty, pick_name_nonempty.
Qed.

Lemma join_then_quiz_and_results_witness :
  (room_join sample_world "ROOM01" " a&b ").1
    = Redirect "/room/ROOM01/quiz?username=a&b"
  ∧ room_quiz (room_join sample_world "ROOM01" " a&b ").2 "ROOM01" "a&b"
    = (RoomQuizPage "ROOM01" "a&b" [sample_question] 1,
       (room_join sample_world "ROOM01" " a&b ").2).
Proof.
  destruct (join_then_quiz_and_results sample_world "ROOM01" sample_room
              " a&b " eq_refl) as (Hredirect & Hquiz & _).
  split; [exact Hredirect | exact Hquiz].
Defined.

(** X6: a join changes the state of no player but the one it stores, so
    the room has as many players as before or one more; a name that is
    new to the room is added at the end of the join order.  When the name
    it stores was taken already, which only a suffixed name can be, that
    player is reset to no answers and not submitted. *)
Theorem join_keeps_other_players w code room username :
  ROOMS w !! code = Some room →
  let u := (pick_name room username (tape w)).1 in
  ∃ room1,
    ROOMS (room_join w code username).2 !! code = Some room1
    ∧ (∀ k, k ≠ u → PyDict.get k (players room1) = PyDict.get k (players room))
    ∧ (PyDict.contains u (players room) = true →
         PyDict.keys (players room1) = PyDict.keys (players room)
         ∧ u ≠ display_name username)
    ∧ (PyDict.contains u (players room) = false →
         PyDict.keys (players room1) = (PyDict.keys (players room) ++ [u])%list)
    ∧ PyDict.get u (players room1) = Some (mkPlayer [] false).
Proof.
  intros Hroom u. rewrite (room_join_ok w code room username Hroom).
  fold u. cbn [snd ROOMS]. eexists. split; [apply lookup_insert_eq |].
  cbn [players]. split_and!.
  - intros k Hk. by apply get_set_ne.
  - intros Hc. split; [by apply keys_set_present, contains_true |].
    intros Heq.
    destruct (PyDict.contains (display_name username) (players room)) eqn:Hn.
    + unfold u in Heq. rewrite pick_name_present in Heq by done.
      cbn [fst] in Heq. by apply suffixed_ne in Heq.
    + rewrite Heq in Hc. congruence.
  - intros Hc. rewrite set_fresh by (by apply contains_false).
    unfold PyDict.keys. by rewrite map_app.
  - apply get_set_eq.
Qed.

Lemma join_keeps_other_players_witness :
  ∃ room1,
    ROOMS (room_join sample_world "ROOM01" "bob").2 !! "ROOM01" = Some room1
    ∧ PyDict.get "alice" (players room1) = Some (mkPlayer [] false)
    ∧ PyDict.keys (players room1) = ["alice"; "bob"].
Proof.
  destruct (join_keeps_other_players sample_world "ROOM01" sample_room "bob"
              eq_refl) as (room1 & Hroom1 & Hother & _ & Hnew & _).
  exists room1. split_and!.
  - exact Hroom1.
  - rewrite (Hother "alice"); [reflexivity | discriminate].
  - exact (Hnew eq_refl).
Defined.

(** ** After a submission *)

(** X7: an accepted submission changes the stored state of the submitting
    player only: every other player of the room, the join order, the
    domain, the questions and the random source stay as they were. *)
Theorem submit_keeps_other_players w code room username info f :
  ROOMS w !! code = Some room →
  form_get "username" f = Some username →
  PyDict.get username (players room) = Some info →
  ∃ room',
    ROOMS (room_submit w code f).2 !! code = Some room'
    ∧ (∀ k, k ≠ username →
         PyDict.get k (players room') = PyDict.get k (players room))
    ∧ PyDict.keys (players room') = PyDict.keys (players room)
    ∧ domain room' = domain room
    ∧ questions room' = questions room
    ∧ tape (room_submit w code f).2 = tape w.
Proof.
  intros Hroom Hu Hinfo.
  rewrite (room_submit_ok w code room username info f) by done.
  cbn [snd ROOMS tape]. eexists. split; [apply lookup_insert_eq |].
  cbn [players domain questions]. split_and!; try done.
  - intros k Hk. by apply get_set_ne.
  - apply keys_set_present. by eexists.
Qed.

Lemma submit_keeps_other_players_witness :
  ∃ room',
    ROOMS (room_submit scored_world "ROOM01"
             [("username", "bob"); ("q0", "x||y||y")]).2 !! "ROOM01"
      = Some room'
    ∧ PyDict.get "alice" (players room') = PyDict.get "alice" (players scored_room)
    ∧ PyDict.keys (players room') = ["alice"; "bob"].
Proof.
  destruct (submit_keeps_other_players scored_world "ROOM01" scored_room "bob"
              (mkPlayer [] false) [("username", "bob"); ("q0", "x||y||y")]
              eq_refl eq_refl eq_refl) as (room' & Hroom' & Hother & Hkeys & _).
  exists room'. split_and!.
  - exact Hroom'.
  - apply Hother. discriminate.
  - exact Hkeys.
Defined.

(** ** An invariant of the registry *)

Lemma items_set_Forall {V : Type} (P : string * V → Prop) k v (d : list (string * V)) :
  P (k, v) → Forall P d → Forall P (PyDict.set k v d).
Proof.
  intros Hv. induction d as [|[k' v'] d IH]; simpl.
  - intros _. by repeat constructor.
  - intros Hd. apply Forall_cons in Hd as [H1 H2].
    destruct (String.eqb k k'); constructor; auto.
Qed.

Lemma keys_set_Forall {V : Type} (P : string → Prop) k v (d : list (string * V)) :
  P k → Forall P (PyDict.keys d) → Forall P (PyDict.keys (PyDict.set k v d)).
Proof.
  intros Hk. induction d as [|[k' v'] d IH]; simpl.
  - intros _. by repeat constructor.
  - intros Hd. apply Forall_cons in Hd as [H1 H2].
    destruct (String.eqb k k'); simpl; constructor; auto.
Qed.

Lemma room_answers_keys_NoDup f ks : ∀ acc,
  NoDup (PyDict.keys acc) → NoDup (PyDict.keys (room_answers f ks acc)).
Proof.
  induction ks as [|key ks IH]; intros acc Hacc; simpl; [done |].
  destruct (form_get key f) as [val|]; [| by apply IH].
  destruct (PyStr.truthy val); [| by apply IH].
  by apply IH, keys_set_NoDup.
Qed.

Lemma room_answers_keys_Forall (P : string → Prop) f ks : ∀ acc,
  Forall P ks → Forall P (PyDict.keys acc) →
  Forall P (PyDict.keys (room_answers f ks acc)).
Proof.
  induction ks as [|key ks IH]; intros acc Hks Hacc; simpl; [done |].
  apply Forall_cons in Hks as [Hkey Hks].
  destruct (form_get key f) as [val|]; [| by apply IH].
  destruct (PyStr.truthy val); [| by apply IH].
  apply IH; [done |]. by apply keys_set_Forall.
Qed.

Lemma q_keys_start_with_q f :
  Forall (λ k, PyStr.startswith "q" k = true) (q_keys f).
Proof.
  apply Forall_forall. intros k Hk. unfold q_keys in Hk.
  apply list_elem_of_In, filter_In in Hk. tauto.
Qed.

Lemma submitted_player_ok u f :
  u ≠ EmptyString → player_ok (u, mkPlayer (submitted_answers f) true).
Proof.
  intros Hu. unfold player_ok, submitted_answers. cbn [fst snd answers submitted].
  split_and!.
  - done.
  - apply room_answers_keys_NoDup. constructor.
  - apply room_answers_keys_Forall; [apply q_keys_start_with_q | constructor].
  - apply room_answers_Forall; [apply score_value_consistent | constructor].
  - done.
Qed.

Lemma new_player_ok u : u ≠ EmptyString → player_ok (u, mkPlayer [] false).
Proof.
  intros Hu. unfold player_ok. cbn [fst snd answers submitted].
  split_and!; [done | constructor | constructor | constructor | done].
Qed.

Lemma handle_keeps_world_ok w r : world_ok w → world_ok (handle w r).2.
Proof.
  intros Hw c room'.
  destruct r as [dom fetched|code|code username|code username|code f|code ou];
    cbn [handle].
  - rewrite create_room_eq. cbn [snd ROOMS].
    destruct (decide ((gen_room_code 6 (tape w)).1 = c)) as [<-|Hne].
    + rewrite lookup_insert_eq. intros [= <-].
      pose proof (gen_room_code_length 6 (tape w)) as Hlen.
      assert (Hchars : string_forall code_char (gen_room_code 6 (tape w)).1
                       = true)
        by (unfold gen_room_code; by apply random_string_forall).
      unfold room_ok. cbn [created domain players].
      split_and!; [done | done | done | apply normalize_domain_known
                  | constructor | constructor].
    + rewrite lookup_insert_ne by done. apply Hw.
  - rewrite (proj1 (pages_are_read_only_aux w code "" None)). apply Hw.
  - unfold room_join. destruct (ROOMS w !! code) as [room|] eqn:Hroom;
      [| apply Hw].
    pose proof (pick_name_nonempty room username (tape w)) as Hu.
    destruct (pick_name room username (tape w)) as [uname t].
    cbn [fst snd ROOMS] in *.
    destruct (decide (code = c)) as [->|Hne].
    + rewrite lookup_insert_eq. intros [= <-].
      destruct (Hw c room Hroom) as (Hlen & Hchars & Hcr & Hdom & Hnd & Hall).
      unfold room_ok. cbn [created domain players].
      split_and!; try done.
      * by apply keys_set_NoDup.
      * apply items_set_Forall; [by apply new_player_ok | done].
    + rewrite lookup_insert_ne by done. apply Hw.
  - rewrite (proj1 (proj2 (pages_are_read_only_aux w code username None))).
    apply Hw.
  - unfold room_submit. destruct (ROOMS w !! code) as [room|] eqn:Hroom;
      [| apply Hw].
    destruct (form_get "username" f) as [u|]; [| apply Hw].
    destruct (PyDict.get u (players room)) as [info|] eqn:Hinfo; [| apply Hw].
    cbn [snd ROOMS].
    destruct (decide (code = c)) as [->|Hne].
    + rewrite lookup_insert_eq. intros [= <-].
      destruct (Hw c room Hroom) as (Hlen & Hchars & Hcr & Hdom & Hnd & Hall).
      unfold room_ok. cbn [created domain players].
      split_and!; try done.
      * by apply keys_set_NoDup.
      * apply items_set_Forall; [| done]. apply submitted_player_ok.
        rewrite Forall_forall in Hall.
        apply (Hall (u, info)). by apply get_elem.
    + rewrite lookup_insert_ne by done. apply Hw.
  - rewrite (proj2 (proj2 (pages_are_read_only_aux w code "" ou))). apply Hw.
Qed.

Lemma run_keeps_world_ok rs : ∀ w, world_ok w → world_ok (run w rs).
Proof.
  induction rs as [|r rs IH]; intros w Hw; [done |].
  unfold run. cbn [fold_left]. apply IH. by apply handle_keeps_world_ok.
Qed.

(** X8: in every state reached from start-up by any sequence of requests,
    every registered room has a six-character code of upper-case letters
    and digits, is marked created, has one of the three categories as its
    domain, and has pairwise distinct player names, none of them empty;
    every player's answers have pairwise distinct keys starting with "q"
    and flags that agree with the comparison of their two answers, and a
    player who has not submitted has no answers. *)
Theorem reachable_rooms_ok t rs code room :
  ROOMS (run (initial t) rs) !! code = Some room → room_ok code room.
Proof.
  apply (run_keeps_world_ok rs (initial t)).
  intros c r Hc. unfold initial in Hc. cbn [ROOMS] in Hc.
  by rewrite lookup_empty in Hc.
Qed.

Lemma reachable_rooms_ok_witness :
  room_ok "AAAAAA"
    (mkRoom "tech" [sample_question]
       [("bob", mkPlayer [("q0", mkEntry "x" "y" "y" true)] true)] true).
Proof.
  apply (reachable_rooms_ok zero_tape
           [ReqCreate "tech" [sample_question]; ReqJoin "AAAAAA" "bob";
            ReqSubmit "AAAAAA" [("username", "bob"); ("q0", "x||y||y")]]).
  by vm_compute.
Defined.

(** ** What a submission stores *)

Lemma answered_has_key f key : answered f key = true → key ∈ form_keys f.
Proof.
  unfold answered, form_get, form_keys. intros H.
  destruct (decide (key ∈ PyDict.keys (PyDict.of_items f))) as [|Hnot]; [done |].
  apply get_None_keys in Hnot. by rewrite Hnot in H.
Qed.

Lemma room_answers_get f key ks : ∀ acc,
  PyDict.get key (room_answers f ks acc)
  = if bool_decide (key ∈ ks) && answered f key
    then score_value <$> form_get key f
    else PyDict.get key acc.
Proof.
  induction ks as [|key0 ks IH]; intros acc; [done |].
  cbn [room_answers].
  destruct (decide (key = key0)) as [<-|Hne].
  - rewrite (bool_decide_eq_true_2 (key ∈ key :: ks)) by left.
    destruct (form_get key f) as [val|] eqn:Hg.
    + destruct (PyStr.truthy val) eqn:Ht; rewrite IH; unfold answered;
        rewrite Hg, Ht; simpl.
      * rewrite andb_true_r. case_bool_decide; [done | by rewrite get_set_eq].
      * by rewrite andb_false_r.
    + rewrite IH. unfold answered. rewrite Hg. by rewrite andb_false_r.
  - assert (Hmem : bool_decide (key ∈ key0 :: ks) = bool_decide (key ∈ ks)).
    { apply bool_decide_ext. rewrite elem_of_cons.
      split; [intros [Heq | Hin]; done | by right]. }
    rewrite Hmem.
    destruct (form_get key0 f) as [val|]; [| apply IH].
    destruct (PyStr.truthy val); [| apply IH].
    rewrite IH. by rewrite get_set_ne.
Qed.

Lemma submitted_answers_get f key :
  PyDict.get key (submitted_answers f)
  = if PyStr.startswith "q" key && answered f key
    then score_value <$> form_get key f
    else None.
Proof.
  unfold submitted_answers. rewrite room_answers_get. cbn [PyDict.get].
  destruct (answered f key) eqn:Ha; [| by rewrite !andb_false_r].
  rewrite !andb_true_r.
  destruct (PyStr.startswith "q" key) eqn:Hq.
  - rewrite bool_decide_eq_true_2; [done |].
    unfold q_keys. apply list_elem_of_In, filter_In. split; [| done].
    by apply list_elem_of_In, answered_has_key.
  - rewrite bool_decide_eq_false_2; [done |].
    unfold q_keys. intros Hin. apply list_elem_of_In, filter_In in Hin.
    destruct Hin as [_ Hin]. congruence.
Qed.

(** X10: the answers a submission stores are exactly the fields whose
    name starts with "q" and whose value is not empty, each under its
    field name, scored from the value the form gives for that name (the
    last one when the field is repeated). *)
Theorem submitted_answers_lookup f key :
  PyDict.get key (submitted_answers f)
  = if PyStr.startswith "q" key && answered f key
    then score_value <$> form_get key f
    else None.
Proof. apply submitted_answers_get. Qed.

Lemma starts_with_q (s : string) : PyStr.startswith "q" ("q" +:+ s) = true.
Proof. unfold PyStr.startswith. simpl. by destruct s. Qed.

(** X11: after an accepted submission of a player with a non-empty name,
    the results page for that player shows, for question [i], the entry
    scored from the form's value for ["q" ++ str(i)] when that value is
    present and not empty, and the placeholder of the question
    otherwise. *)
Theorem submit_then_details w code room username info f i q :
  ROOMS w !! code = Some room →
  form_get "username" f = Some username →
  PyDict.get username (players room) = Some info →
  username ≠ EmptyString →
  questions room !! i = Some q →
  ∃ room',
    ROOMS (room_submit w code f).2 !! code = Some room'
    ∧ length (detailed room' (Some username)) = length (questions room)
    ∧ detailed room' (Some username) !! i
      = Some (match form_get ("q" +:+ PyStr.of_nat i) f with
              | Some val =>
                  if PyStr.truthy val then score_value val else placeholder q
              | None => placeholder q
              end).
Proof.
  intros Hroom Hu Hinfo Hne Hq.
  rewrite (room_submit_ok w code room username info f) by done.
  cbn [snd ROOMS]. eexists. split; [apply lookup_insert_eq |].
  unfold detailed, user_details. cbn [players questions].
  rewrite (proj2 (truthy_nonempty username) Hne), get_set_eq. split.
  - by rewrite length_map, length_seq.
  - rewrite lookup_map, lookup_seq_lt by (by eapply lookup_lt_Some).
    simpl. unfold detail_at. cbn [answers questions].
    rewrite submitted_answers_get, starts_with_q, Hq. simpl.
    unfold answered. destruct (form_get ("q" +:+ PyStr.of_nat i) f) as [val|];
      [| done].
    by destruct (PyStr.truthy val).
Qed.

Lemma submit_then_details_witness :
  ∃ room',
    ROOMS (room_submit sample_world "ROOM01"
             [("username", "alice"); ("q0", "Capital of France?||Paris||Rome")]).2
      !! "ROOM01" = Some room'
    ∧ detailed room' (Some "alice") !! 0
      = Some (mkEntry "Capital of France?" "Paris" "Rome" false).
Proof.
  destruct (submit_then_details sample_world "ROOM01" sample_room "alice"
              (mkPlayer [] false)
              [("username", "alice"); ("q0", "Capital of France?||Paris||Rome")]
              0 sample_question eq_refl eq_refl eq_refl ltac:(discriminate)
              eq_refl) as (room' & Hroom' & _ & Hd).
  exists room'. split; [exact Hroom' | exact Hd].
Defined.

(** ** Details against the leaderboard *)

Lemma to_uint_nonnil n : Nat.to_uint n ≠ Decimal.Nil.
Proof.
  pose proof (Unsigned.to_of (Nat.to_uint n)) as H.
  rewrite Unsigned.of_to in H. rewrite H. unfold Decimal.unorm.
  by destruct (Decimal.nzhead (Nat.to_uint n)).
Qed.

Lemma of_nat_inj i j : PyStr.of_nat i = PyStr.of_nat j → i = j.
Proof.
  unfold PyStr.of_nat. intros H. apply Unsigned.to_uint_inj.
  apply (f_equal NilZero.uint_of_string) in H.
  rewrite !NilZero.usu in H by apply to_uint_nonnil. by injection H.
Qed.

Lemma detail_count room info (l : list nat) :
  count_correct (List.map (detail_at room info) l)
  = length (omap (correct_at (answers info)) l).
Proof.
  unfold count_correct. induction l as [|i l IH]; [done |].
  cbn [List.map List.filter omap list_omap]. unfold detail_at at 1, correct_at at 1.
  destruct (PyDict.get ("q" +:+ PyStr.of_nat i) (answers info)) as [a|].
  - destruct (is_correct a); simpl; by rewrite IH.
  - simpl. by rewrite IH.
Qed.

Lemma correct_at_NoDup ans (l : list nat) :
  NoDup l → NoDup (omap (correct_at ans) l).
Proof.
  induction 1 as [|i l Hi Hnd IH]; [constructor |].
  cbn [omap list_omap]. destruct (correct_at ans i) as [x|] eqn:Hx; [| done].
  constructor; [| done]. intros Hin.
  apply list_elem_of_omap in Hin as (j & Hj & Hxj).
  unfold correct_at in Hx, Hxj.
  destruct (PyDict.get ("q" +:+ PyStr.of_nat i) ans) as [a|]; [| done].
  destruct (PyDict.get ("q" +:+ PyStr.of_nat j) ans) as [b|]; [| done].
  destruct (is_correct a); [| done]. destruct (is_correct b); [| done].
  injection Hx as <-. injection Hxj as Hk _.
  apply string_app_inj, of_nat_inj in Hk. by subst.
Qed.

Lemma correct_at_stored ans (l : list nat) x :
  x ∈ omap (correct_at ans) l → x ∈ List.filter (λ p, is_correct p.2) ans.
Proof.
  intros Hin. apply list_elem_of_omap in Hin as (j & _ & Hx).
  unfold correct_at in Hx.
  destruct (PyDict.get ("q" +:+ PyStr.of_nat j) ans) as [a|] eqn:Hg; [| done].
  destruct (is_correct a) eqn:Ha; [| done]. injection Hx as <-.
  apply list_elem_of_In, filter_In. split; [| done].
  by apply list_elem_of_In, get_elem.
Qed.

Lemma detailed_count_le room u info :
  PyDict.get u (players room) = Some info →
  (count_correct (detailed room (Some u))
   ≤ count_correct (PyDict.values (answers info)))%nat.
Proof.
  intros Hinfo. unfold detailed, user_details.
  destruct (PyStr.truthy u); [| simpl; unfold count_correct; simpl; lia].
  rewrite Hinfo, detail_count.
  unfold count_correct, PyDict.values.
  rewrite filter_map_swap, length_map.
  apply submseteq_length, NoDup_submseteq.
  - apply correct_at_NoDup, NoDup_ListNoDup, List.seq_NoDup.
  - intros x. apply correct_at_stored.
Qed.

(** X12: on the results page the number of entries flagged correct in a
    joined player's detail list is at most that player's score on the
    leaderboard; the detail list reads only the keys "q0" to "q(n-1)",
    the score counts every stored entry. *)
Theorem details_never_exceed_score w code room u info :
  ROOMS w !! code = Some room →
  PyDict.get u (players room) = Some info →
  ∃ lb details row,
    room_results w code (Some u)
      = (RoomResultsPage code lb details (Some u) (length (questions room)), w)
    ∧ row ∈ lb
    ∧ r_username row = u
    ∧ (count_correct details ≤ r_score row)%nat.
Proof.
  intros Hroom Hinfo. unfold room_results. rewrite Hroom.
  eexists _, _, (mkRow u (count_correct (PyDict.values (answers info)))
                   (submitted info)).
  split; [reflexivity |]. split_and!.
  - unfold leaderboard. rewrite sorted_perm.
    unfold player_rows, PyDict.items. apply list_elem_of_In, in_map_iff.
    exists (u, info). split; [done |]. by apply list_elem_of_In, get_elem.
  - done.
  - cbn [r_score]. by apply detailed_count_le.
Qed.

Lemma details_never_exceed_score_witness :
  count_correct (detailed scored_room (Some "alice")) = 1
  ∧ ∃ row, row ∈ leaderboard scored_room
      ∧ r_username row = "alice"
      ∧ r_score row = 2
      ∧ (count_correct (detailed scored_room (Some "alice")) ≤ r_score row)%nat.
Proof.
  split; [reflexivity |].
  destruct (details_never_exceed_score scored_world "ROOM01" scored_room "alice"
              (mkPlayer [("q0", mkEntry "Capital of France?" "Paris" "Paris" true);
                         ("q7", mkEntry "1 + 1?" "2" "2" true);
                         ("q1", mkEntry "2 + 2?" "4" "5" false)] true)
              eq_refl eq_refl) as (lb & details & row & Heq & Hin & Hname & Hle).
  unfold room_results in Heq.
  change (ROOMS scored_world !! "ROOM01") with (Some scored_room) in Heq.
  injection Heq as <- <-.
  exists row. split_and!; [exact Hin | exact Hname | | exact Hle].
  apply list_elem_of_In in Hin. vm_compute in Hin.
  destruct Hin as [<- | [<- | []]]; [reflexivity | discriminate Hname].
Defined.

(** ** The encoding of an answer *)

(** X13: a value built as question, correct answer and selection joined
    by the separator is decoded to the same three parts, with the flag
    telling whether selection and correct answer are equal, provided none
    of the three contains a vertical bar. *)
Theorem score_value_decodes qtext correct selected :
  bar_free qtext = true → bar_free correct = true → bar_free selected = true →
  score_value (encode_answer qtext correct selected)
  = mkEntry qtext correct selected (String.eqb selected correct).
Proof.
  intros Hq Hc Hs. unfold score_value, encode_answer.
  rewrite split_bars_app by done. rewrite split_bars_app by done.
  by rewrite split_bars_bar_free.
Qed.

Lemma score_value_decodes_witness :
  score_value (encode_answer "Capital of France?" "Paris" "Rome")
  = mkEntry "Capital of France?" "Paris" "Rome" false.
Proof.
  exact (score_value_decodes "Capital of France?" "Paris" "Rome"
           eq_refl eq_refl eq_refl).
Defined.

Lemma split_bars_bar_other d r :
  d ≠ "|"%char →
  PyStr.split_bars (String "|" (String d r))
  = match PyStr.split_bars (String d r) with
    | h :: t => String "|" h :: t
    | [] => [String "|" EmptyString]
    end.
Proof.
  intros Hd. destruct d as [[] [] [] [] [] [] [] []]; try reflexivity.
  by destruct Hd.
Qed.

Lemma split_bars_nonempty s : PyStr.split_bars s ≠ [].
Proof.
  induction s as [|c r IH]; [done |].
  destruct (Ascii.eqb_spec c "|") as [-> | Hc].
  - destruct r as [|d r']; [done |].
    destruct (Ascii.eqb_spec d "|") as [-> | Hd]; [done |].
    rewrite split_bars_bar_other by done.
    by destruct (PyStr.split_bars (String d r')).
  - rewrite split_bars_not_bar by done. by destruct (PyStr.split_bars r).
Qed.

Lemma split_length_not_bar c r :
  c ≠ "|"%char →
  length (PyStr.split_bars (String c r)) = length (PyStr.split_bars r).
Proof.
  intros Hc. rewrite split_bars_not_bar by done.
  pose proof (split_bars_nonempty r). by destruct (PyStr.split_bars r).
Qed.

Lemma split_length_bar_other d r :
  d ≠ "|"%char →
  length (PyStr.split_bars (String "|" (String d r)))
  = length (PyStr.split_bars (String d r)).
Proof.
  intros Hd. rewrite split_bars_bar_other by done.
  pose proof (split_bars_nonempty (String d r)).
  by destruct (PyStr.split_bars (String d r)).
Qed.

(** One more character in front never gives fewer pieces. *)
Lemma split_length_cons (n : nat) : ∀ (s : string) (d : ascii),
  (String.length s ≤ n)%nat →
  (length (PyStr.split_bars s) ≤ length (PyStr.split_bars (String d s)))%nat.
Proof.
  induction n as [n IH] using lt_wf_ind. intros s d Hn.
  destruct (Ascii.eqb_spec d "|") as [-> | Hd];
    [| by rewrite split_length_not_bar].
  destruct s as [|e s']; [done |].
  destruct (Ascii.eqb_spec e "|") as [-> | He];
    [| by rewrite split_length_bar_other].
  change (PyStr.split_bars (String "|" (String "|" s')))
    with (EmptyString :: PyStr.split_bars s').
  cbn [length]. destruct s' as [|g s'']; [simpl; lia |].
  destruct (Ascii.eqb_spec g "|") as [-> | Hg].
  - change (PyStr.split_bars (String "|" (String "|" s'')))
      with (EmptyString :: PyStr.split_bars s'').
    cbn [length]. apply le_n_S.
    apply (IH (String.length s'')); simpl in *; lia.
  - rewrite split_length_bar_other by done. lia.
Qed.

(** Every separator written into a value is at least one more piece. *)
Lemma split_length_app (n : nat) : ∀ (a b : string),
  (String.length a ≤ n)%nat →
  (S (length (PyStr.split_bars b))
   ≤ length (PyStr.split_bars (a +:+ "||" +:+ b)))%nat.
Proof.
  induction n as [n IH] using lt_wf_ind. intros a b Hn.
  destruct a as [|c a'].
  { change (EmptyString +:+ "||" +:+ b) with (String "|" (String "|" b)).
    change (PyStr.split_bars (String "|" (String "|" b)))
      with (EmptyString :: PyStr.split_bars b). done. }
  change (String c a' +:+ "||" +:+ b) with (String c (a' +:+ "||" +:+ b)).
  destruct (Ascii.eqb_spec c "|") as [-> | Hc].
  - destruct a' as [|e a''].
    + change (EmptyString +:+ "||" +:+ b) with (String "|" (String "|" b)).
      change (PyStr.split_bars (String "|" (String "|" (String "|" b))))
        with (EmptyString :: PyStr.split_bars (String "|" b)).
      cbn [length]. apply le_n_S. by eapply split_length_cons.
    + change (String e a'' +:+ "||" +:+ b)
        with (String e (a'' +:+ "||" +:+ b)).
      destruct (Ascii.eqb_spec e "|") as [-> | He].
      * change (PyStr.split_bars
                  (String "|" (String "|" (a'' +:+ "||" +:+ b))))
          with (EmptyString :: PyStr.split_bars (a'' +:+ "||" +:+ b)).
        cbn [length].
        pose proof (IH (String.length a'') ltac:(simpl in *; lia) a'' b
                      ltac:(lia)).
        lia.
      * rewrite split_length_bar_other by done.
        change (String e (a'' +:+ "||" +:+ b))
          with (String e a'' +:+ "||" +:+ b).
        apply (IH (String.length (String e a''))); simpl in *; lia.
  - rewrite split_length_not_bar by done.
    apply (IH (String.length a')); simpl in *; lia.
Qed.

(** X14: when the question text itself contains the separator, whatever
    the correct answer and the selection are, the value has more than
    three pieces, and the entry is stored with the whole value as its
    question, empty correct answer and selection, and the flag true. *)
Theorem score_value_separator_in_question q1 q2 correct selected :
  score_value (encode_answer (q1 +:+ "||" +:+ q2) correct selected)
  = mkEntry (encode_answer (q1 +:+ "||" +:+ q2) correct selected)
      EmptyString EmptyString true.
Proof.
  unfold score_value.
  assert (Hlen : (4 ≤ length (PyStr.split_bars
                     (encode_answer (q1 +:+ "||" +:+ q2) correct selected)))%nat).
  { unfold encode_answer. rewrite !string_app_assoc.
    pose proof (split_bars_nonempty selected) as H0.
    pose proof (split_length_app _ correct selected (le_n _)) as H1.
    pose proof (split_length_app _ q2 (correct +:+ "||" +:+ selected)
                  (le_n _)) as H2.
    pose proof (split_length_app _ q1
                  (q2 +:+ "||" +:+ correct +:+ "||" +:+ selected)
                  (le_n _)) as H3.
    destruct (PyStr.split_bars selected); [done |]. simpl in H1. lia. }
  destruct (PyStr.split_bars
              (encode_answer (q1 +:+ "||" +:+ q2) correct selected))
    as [|x1 [|x2 [|x3 [|x4 l]]]]; simpl in Hlen; try done; lia.
Qed.

(** ** The order of the form's fields *)

Lemma string_leb_trans (a b c : string) :
  String.leb a b = true → String.leb b c = true → String.leb a c = true.
Proof.
  unfold String.leb. intros Hab Hbc.
  destruct (String.compare a b) eqn:Eab; [| | done].
  - apply String.compare_eq_iff in Eab. by subst.
  - destruct (String.compare b c) eqn:Ebc; [| | done].
    + apply String.compare_eq_iff in Ebc. subst. by rewrite Eab.
    + apply String_as_OT.cmp_lt in Eab, Ebc.
      pose proof (String_as_OT.lt_trans _ _ _ Eab Ebc) as Hac.
      apply String_as_OT.cmp_lt in Hac. unfold String_as_OT.cmp in Hac.
      by rewrite Hac.
Qed.

Lemma sorted_strings_perm (l1 l2 : list string) :
  l1 ≡ₚ l2 →
  PySort.sorted String.leb false l1 = PySort.sorted String.leb false l2.
Proof.
  intros Hperm. unfold PySort.sorted.
  apply (StronglySorted_unique_strong (λ a b, String.leb a b = true)).
  - intros x y _ _. apply String.leb_antisym.
  - apply stable_sort_sorted; [apply String.leb_total | apply string_leb_trans].
  - apply stable_sort_sorted; [apply String.leb_total | apply string_leb_trans].
  - by rewrite !stable_sort_perm.
Qed.

Lemma form_keys_elem f k : k ∈ form_keys f ↔ is_Some (form_get k f).
Proof.
  unfold form_keys, form_get. split.
  - intros Hk. destruct (PyDict.get k (PyDict.of_items f)) eqn:Hg; [done |].
    by apply get_None_keys in Hg.
  - intros [v Hv].
    destruct (decide (k ∈ PyDict.keys (PyDict.of_items f))) as [|Hn]; [done |].
    apply get_None_keys in Hn. congruence.
Qed.

Lemma q_keys_elem f k :
  k ∈ q_keys f ↔ PyStr.startswith "q" k = true ∧ is_Some (form_get k f).
Proof.
  unfold q_keys. rewrite list_elem_of_In, filter_In, <- list_elem_of_In.
  rewrite form_keys_elem. tauto.
Qed.

Lemma q_keys_perm f1 f2 :
  (∀ k, form_get k f1 = form_get k f2) → q_keys f1 ≡ₚ q_keys f2.
Proof.
  intros Heq. apply NoDup_Permutation; [apply q_keys_NoDup .. |].
  intros k. rewrite !q_keys_elem. by rewrite Heq.
Qed.

Lemma single_answers_ext f1 f2 ks :
  (∀ k, form_get k f1 = form_get k f2) →
  single_answers f1 ks = single_answers f2 ks.
Proof.
  intros Heq. induction ks as [|key ks IH]; [done |].
  cbn [single_answers]. by rewrite Heq, IH.
Qed.

Lemma answered_right_ext f1 f2 :
  (∀ k, form_get k f1 = form_get k f2) →
  ∀ k, answered_right f1 k = answered_right f2 k.
Proof. intros Heq k. unfold answered_right. by rewrite Heq. Qed.

(** X15: two forms that give the same value for every field name, as the
    same fields sent in another order do, get the same single-player
    result; in a room submission they store the same entry under every
    key and give the same number of correct entries. *)
Theorem field_order_is_irrelevant f1 f2 :
  (∀ k, form_get k f1 = form_get k f2) →
  single_player_results f1 = single_player_results f2
  ∧ (∀ key, PyDict.get key (submitted_answers f1)
            = PyDict.get key (submitted_answers f2))
  ∧ count_correct (PyDict.values (submitted_answers f1))
    = count_correct (PyDict.values (submitted_answers f2)).
Proof.
  intros Heq. split_and!.
  - unfold single_player_results, declared_total. rewrite Heq.
    rewrite (sorted_strings_perm (q_keys f1) (q_keys f2))
      by (by apply q_keys_perm).
    by rewrite (single_answers_ext f1 f2).
  - intros key. rewrite !submitted_answers_get. unfold answered.
    by rewrite Heq.
  - rewrite !submitted_answers_count.
    rewrite (filter_length_perm _ _ _ (q_keys_perm f1 f2 Heq)).
    f_equal. apply filter_ext. by apply answered_right_ext.
Qed.

Lemma form_get_two_fields (k1 k2 v1 v2 k : string) :
  k1 ≠ k2 →
  form_get k [(k1, v1); (k2, v2)] = form_get k [(k2, v2); (k1, v1)].
Proof.
  intros Hne. unfold form_get, PyDict.of_items. cbn.
  destruct (String.eqb_spec k1 k2) as [|_]; [done |].
  destruct (String.eqb_spec k2 k1) as [|_]; [congruence |]. cbn.
  destruct (String.eqb_spec k k1) as [->|]; [| done].
  by destruct (String.eqb_spec k1 k2).
Qed.

Lemma field_order_is_irrelevant_witness :
  single_player_results [("q1", "b||y||y"); ("q0", "a||x||x")]
  = single_player_results [("q0", "a||x||x"); ("q1", "b||y||y")].
Proof.
  exact (proj1 (field_order_is_irrelevant
                  [("q1", "b||y||y"); ("q0", "a||x||x")]
                  [("q0", "a||x||x"); ("q1", "b||y||y")]
                  (λ k, form_get_two_fields "q1" "q0" "b||y||y" "a||x||x" k
                          ltac:(discriminate)))).
Defined.

(** ** The declared total *)

Lemma filter_length_le {A : Type} (p : A → bool) (l : list A) :
  (length (List.filter p l) ≤ length l)%nat.
Proof.
  induction l as [|x l IH]; simpl; [lia |]. destruct (p x); simpl; lia.
Qed.

(** X16: when the form has no [total_questions] field, or an empty one,
    the single-player handler does not fail and reports total 0; whatever
    the total, the score is at most the number of results listed, which
    is at most the number of fields whose name starts with "q". *)
Theorem single_player_total_defaults f :
  (form_get "total_questions" f = None
   ∨ form_get "total_questions" f = Some EmptyString →
   ∃ results score,
     single_player_results f = Some (SinglePlayerResultsPage results score 0))
  ∧ (∀ results score total,
       single_player_results f
         = Some (SinglePlayerResultsPage results score total) →
       (score ≤ length results)%nat
       ∧ (length results ≤ length (q_keys f))%nat).
Proof.
  split.
  - intros Hmissing. unfold single_player_results, declared_total.
    destruct Hmissing as [-> | ->]; by eexists _, _.
  - intros results score total. unfold single_player_results.
    destruct (declared_total f); [| done]. intros [= <- <- _]. split.
    + apply filter_length_le.
    + rewrite single_answers_length.
      rewrite (filter_length_perm _ _ _ (sorted_perm String.leb false (q_keys f))).
      apply filter_length_le.
Qed.

Lemma single_player_total_defaults_witness :
  ∃ results score,
    single_player_results [("q0", "a||x||x")]
      = Some (SinglePlayerResultsPage results score 0).
Proof.
  exact (proj1 (single_player_total_defaults [("q0", "a||x||x")])
           (or_introl eq_refl)).
Defined.

(** ** Fetching questions *)

Lemma swap_perm {A : Type} (i j : nat) (x : list A) : PyRandom.swap i j x ≡ₚ x.
Proof.
  unfold PyRandom.swap.
  destruct (x !! i) as [a|] eqn:Hi; [| done].
  destruct (x !! j) as [b|] eqn:Hj; [| done].
  by apply Permutation_insert_swap.
Qed.

Lemma shuffle_from_perm {A : Type} (i : nat) : ∀ (x : list A) t,
  (PyRandom.shuffle_from i x t).1 ≡ₚ x.
Proof.
  induction i as [|i IH]; intros x t; [done |].
  cbn [PyRandom.shuffle_from]. rewrite IH. apply swap_perm.
Qed.

Lemma shuffle_perm {A : Type} (x : list A) t : (PyRandom.shuffle x t).1 ≡ₚ x.
Proof. apply shuffle_from_perm. Qed.

Lemma build_question_spec unescape item t :
  let q := (build_question unescape item t).1 in
  question q = unescape (default EmptyString (i_question item))
  ∧ answer q = unescape (default EmptyString (i_correct_answer item))
  ∧ options q ≡ₚ
      (List.map unescape (default [] (i_incorrect_answers item)) ++ [answer q])%list.
Proof.
  unfold build_question.
  pose proof (shuffle_perm
    (List.map unescape (default [] (i_incorrect_answers item))
     ++ [unescape (default EmptyString (i_correct_answer item))])%list t) as Hp.
  destruct (PyRandom.shuffle _ t) as [opts t']. by cbn in *.
Qed.

Lemma build_questions_spec unescape items : ∀ t,
  Forall2
    (λ item q,
       question q = unescape (default EmptyString (i_question item))
       ∧ answer q = unescape (default EmptyString (i_correct_answer item))
       ∧ options q ≡ₚ
           (List.map unescape (default [] (i_incorrect_answers item))
            ++ [answer q])%list)
    items (build_questions unescape items t).1.
Proof.
  induction items as [|item items IH]; intros t; [constructor |].
  cbn [build_questions].
  pose proof (build_question_spec unescape item t) as Hq.
  destruct (build_question unescape item t) as [q t1]. cbn [fst] in Hq.
  specialize (IH t1).
  destruct (build_questions unescape items t1) as [qs t2]. cbn [fst] in *.
  by constructor.
Qed.

(** X18: [fetch_questions] returns one question per item of the reply, in
    the reply's order and however many were asked for; each has the
    unescaped question text and correct answer of its item, and its
    options are a rearrangement of the unescaped incorrect answers
    together with the correct answer, so the correct answer is always
    among the options. *)
Theorem fetch_questions_builds unescape http_results category_key amount t items :
  http_results (question_url category_key amount) = Some items →
  let qs := (fetch_questions unescape http_results category_key amount t).1 in
  length qs = length items
  ∧ Forall2
      (λ item q,
         question q = unescape (default EmptyString (i_question item))
         ∧ answer q = unescape (default EmptyString (i_correct_answer item))
         ∧ options q ≡ₚ
             (List.map unescape (default [] (i_incorrect_answers item))
              ++ [answer q])%list)
      items qs
  ∧ Forall (λ q, answer q ∈ options q
                 ∧ (1 ≤ length (options q))%nat) qs.
Proof.
  intros Hreply qs.
  assert (Hqs : qs = (build_questions unescape items t).1).
  { unfold qs, fetch_questions. rewrite Hreply. by destruct items. }
  pose proof (build_questions_spec unescape items t) as Hspec.
  rewrite <- Hqs in Hspec. clearbody qs. clear Hqs Hreply. split_and!.
  - symmetry. by eapply Forall2_length.
  - done.
  - induction Hspec as [|item q items' qs' (_ & _ & Hopts) _ IH];
      [constructor |].
    constructor; [| done]. split.
    + rewrite Hopts. apply elem_of_app. right. by left.
    + rewrite Hopts, length_app. simpl. lia.
Qed.

Lemma fetch_questions_builds_witness :
  let reply :=
    [mkItem (Some "Capital of France?") (Some "Paris")
       (Some ["Rome"; "Oslo"; "Bern"])] in
  Forall (λ q, answer q ∈ options q ∧ (1 ≤ length (options q))%nat)
    (fetch_questions (λ s, s) (λ _, Some reply) "general" 10 zero_tape).1.
Proof.
  exact (proj2 (proj2 (fetch_questions_builds (λ s, s)
    (λ _, Some [mkItem (Some "Capital of France?") (Some "Paris")
                  (Some ["Rome"; "Oslo"; "Bern"])])
    "general" 10 zero_tape _ eq_refl))).
Defined.




(** X20: the room made by [create_room] from what it fetches has as many
    questions as the provider returned items for the normalised domain,
    none when the request failed, and the single-player start page
    declares that same number as [total_questions]. *)
Theorem question_count_is_reply_size unescape http_results w dom t :
  let n := match http_results (question_url (normalize_domain dom) 10) with
           | Some items => length items
           | None => 0
           end in
  (single_quiz_start unescape http_results dom t).1.2 = n
  ∧ length (single_quiz_start unescape http_results dom t).1.1.1 = n
  ∧ room_join_page (create_room_fetching unescape http_results w dom t).1.2
      (gen_room_code 6 (tape w)).1
    = (RoomJoinPage (gen_room_code 6 (tape w)).1 (normalize_domain dom) n,
       (create_room_fetching unescape http_results w dom t).1.2).
Proof.
  intros n.
  assert (Hlen : length (fetch_questions unescape http_results
                           (normalize_domain dom) 10 t).1 = n).
  { unfold n, fetch_questions.
    destruct (http_results (question_url (normalize_domain dom) 10))
      as [items|]; [| done].
    pose proof (build_questions_spec unescape items t) as Hspec.
    apply Forall2_length in Hspec. by destruct items. }
  unfold single_quiz_start, create_room_fetching.
  destruct (fetch_questions unescape http_results (normalize_domain dom) 10 t)
    as [qs t']. cbn [fst snd] in *. split_and!; [done | done |].
  rewrite create_room_eq. cbn [snd]. unfold room_join_page. cbn [ROOMS].
  rewrite lookup_insert_eq. cbn [domain questions]. by rewrite Hlen.
Qed.

(** ** Display names *)

Lemma lstrip_head s c r : PyStr.lstrip s = String c r → PyStr.isspace c = false.
Proof.
  induction s as [|a s IH]; simpl; [done |].
  destruct (PyStr.isspace a) eqn:Ha; [done |]. by intros [= <- _].
Qed.

Lemma rstrip_cons_nonspace c r :
  PyStr.isspace c = false → PyStr.rstrip (String c r) = String c (PyStr.rstrip r).
Proof. intros Hc. simpl. rewrite Hc. by destruct (PyStr.rstrip r). Qed.

Lemma rstrip_last s c : last_char (PyStr.rstrip s) = Some c → PyStr.isspace c = false.
Proof.
  induction s as [|a s IH]; simpl; [done |].
  destruct (PyStr.rstrip s) as [|b r'] eqn:Hr.
  - destruct (PyStr.isspace a) eqn:Ha; simpl; [done |]. by intros [= <-].
  - intros H. by apply IH.
Qed.

Lemma rstrip_idem s : PyStr.rstrip (PyStr.rstrip s) = PyStr.rstrip s.
Proof.
  induction s as [|a s IH]; simpl; [done |].
  destruct (PyStr.rstrip s) as [|b r'] eqn:Hr.
  - destruct (PyStr.isspace a) eqn:Ha; simpl; [done | by rewrite Ha].
  - change (PyStr.rstrip (String a (String b r')))
      with (match PyStr.rstrip (String b r') with
            | EmptyString =>
                if PyStr.isspace a then EmptyString else String a EmptyString
            | r0 => String a r0
            end).
    by rewrite IH.
Qed.

Lemma strip_head s c r : PyStr.strip s = String c r → PyStr.isspace c = false.
Proof.
  unfold PyStr.strip. destruct (PyStr.lstrip s) as [|a l] eqn:Hl; [done |].
  pose proof (lstrip_head s a l Hl) as Ha.
  rewrite rstrip_cons_nonspace by done. by intros [= <- _].
Qed.

Lemma strip_idem s : PyStr.strip (PyStr.strip s) = PyStr.strip s.
Proof.
  destruct (PyStr.strip s) as [|c r] eqn:Hs; [done |].
  pose proof (strip_head s c r Hs) as Hc.
  unfold PyStr.strip at 1. cbn [PyStr.lstrip]. rewrite Hc, <- Hs.
  unfold PyStr.strip. apply rstrip_idem.
Qed.

Lemma last_char_cons c r : is_Some (last_char (String c r)).
Proof.
  revert c. induction r as [|b r IH]; intros c; [by eexists |]. apply IH.
Qed.

Lemma display_name_cases username :
  (display_name username = PyStr.strip username
   ∧ PyStr.truthy (PyStr.strip username) = true)
  ∨ display_name username = "Player".
Proof.
  unfold display_name. destruct (PyStr.truthy (PyStr.strip username)); auto.
Qed.

Lemma display_name_idem username :
  display_name (display_name username) = display_name username.
Proof.
  destruct (display_name_cases username) as [[-> Ht] | ->]; [| done].
  unfold display_name. by rewrite strip_idem, Ht.
Qed.

(** X21: the name under which a join looks a player up is never empty,
    neither starts nor ends with a white-space character, and is left as
    it is when it is normalised again, so asking for a name exactly as it
    was stored asks for that same name. *)
Theorem display_name_normal username :
  ∃ c r c',
    display_name username = String c r
    ∧ PyStr.isspace c = false
    ∧ last_char (display_name username) = Some c'
    ∧ PyStr.isspace c' = false
    ∧ display_name (display_name username) = display_name username.
Proof.
  pose proof (display_name_idem username) as Hidem.
  destruct (display_name_cases username) as [[Heq Ht] | Heq];
    rewrite Heq in *; clear Heq.
  - destruct (PyStr.strip username) as [|c r] eqn:Hs; [done |].
    destruct (last_char_cons c r) as [c' Hc'].
    exists c, r, c'. split_and!; try done.
    + by eapply strip_head.
    + apply (rstrip_last (PyStr.lstrip username)). fold (PyStr.strip username).
      by rewrite Hs.
  - by exists "P"%char, "layer", "r"%char.
Qed.
